(** * vnext-sys-flow: domain discovery and component loading (index.js)

    A shallow embedding of the package entry point: the domain locator
    [findDomainDirectory], the component loader [loadJsonFiles] and the
    accessors exported by the module, over an in-memory model of the
    filesystem below the working directory, followed by the properties the
    specification states about them. *)

From Stdlib Require Import Ascii String List ZArith Lia Bool.
From stdpp Require Import base option gmap strings list fin_maps.

Set Warnings "-register-all".

(** ** JavaScript string methods used by the module *)

Module JsString.

(** [s.startsWith(p)] *)
Fixpoint startsWith (s p : string) : bool :=
  match p, s with
  | EmptyString, _ => true
  | String _ _, EmptyString => false
  | String a p', String b s' => Ascii.eqb a b && startsWith s' p'
  end.

(** [s.slice(n)] for [0 <= n] *)
Fixpoint slice_from (n : nat) (s : string) : string :=
  match n, s with
  | O, _ => s
  | S _, EmptyString => EmptyString
  | S n', String _ s' => slice_from n' s'
  end.

(** [s.endsWith(p)]: the last [p.length] code units of [s] are [p]. *)
Definition endsWith (s p : string) : bool :=
  (String.length p <=? String.length s)%nat
  && String.eqb (slice_from (String.length s - String.length p) s) p.

(** [s.indexOf(p)], [None] standing for -1. *)
Fixpoint indexOf (s p : string) : option nat :=
  if startsWith s p then Some O
  else match s with
       | EmptyString => None
       | String _ s' => option_map S (indexOf s' p)
       end.

(** [s.replace(p, r)] with a string pattern [p] and a replacement [r]
    free of [$]: only the first occurrence of [p] is replaced. *)
Definition replace (s p r : string) : string :=
  match indexOf s p with
  | None => s
  | Some i =>
      String.substring 0 i s +:+ r +:+ slice_from (i + String.length p) s
  end.

End JsString.

(** ** JSON values *)

(** Numbers are restricted to integers; floating point is not modelled. *)
Inductive json : Type :=
| JNull
| JBool (b : bool)
| JNumber (n : Z)
| JString (s : string)
| JArray (items : list json)
| JObject (members : list (string * json)).

(** A thrown JavaScript [Error]; only its [message] is ever inspected. *)
Record Error : Type := mkError { message : string }.

(** Completion of an evaluation: a value, or a thrown exception. *)
Inductive completion (A : Type) : Type :=
| Normal (a : A)
| Throw (e : Error).
Arguments Normal {A} a.
Arguments Throw {A} e.

(** ** POSIX [path.join] *)

Module Path.

Definition sep : ascii := "/"%char.

(** The segments of a path between separators. *)
Fixpoint split (p : string) : list string :=
  match p with
  | EmptyString => [EmptyString]
  | String c p' =>
      if Ascii.eqb c sep then EmptyString :: split p'
      else match split p' with
           | h :: t => String c h :: t
           | [] => [String c EmptyString]
           end
  end.

(** One step of [normalizeString]: empty and [.] segments vanish, [..]
    removes the segment before it, or stays when there is none to remove
    and the path is relative. *)
Definition normalize_step (allowAboveRoot : bool) (res : list string)
    (seg : string) : list string :=
  if String.eqb seg EmptyString || String.eqb seg "." then res
  else if String.eqb seg ".." then
    match List.rev res with
    | last :: before =>
        if String.eqb last ".." then
          (if allowAboveRoot then res ++ [".."] else res)
        else List.rev before
    | [] => if allowAboveRoot then [".."] else []
    end
  else res ++ [seg].

Definition normalizeString (p : string) (allowAboveRoot : bool) : string :=
  String.concat "/" (fold_left (normalize_step allowAboveRoot) (split p) []).

(** [path.normalize(p)] *)
Definition normalize (p : string) : string :=
  if String.eqb p EmptyString then "."
  else
    let isAbsolute := JsString.startsWith p "/" in
    let trailingSeparator := JsString.endsWith p "/" in
    let q := normalizeString p (negb isAbsolute) in
    if String.eqb q EmptyString then
      (if isAbsolute then "/" else if trailingSeparator then "./" else ".")
    else
      let q' := if trailingSeparator then q +:+ "/" else q in
      if isAbsolute then "/" +:+ q' else q'.

(** [path.join(a, b)]: the non-empty arguments joined by the separator,
    then normalized. *)
Definition join (a b : string) : string :=
  if String.eqb a EmptyString then
    (if String.eqb b EmptyString then "." else normalize b)
  else if String.eqb b EmptyString then normalize a
  else normalize (a +:+ "/" +:+ b).

End Path.

(** ** The filesystem below the working directory *)

(** A directory keeps its entries in enumeration order; a symbolic link
    carries what it resolves to ([None] when it dangles). The [readable]
    flags stand for the read permission of the process. *)
Inductive node : Type :=
| RegFile (readable : bool) (content : string)
| Directory (readable : bool) (entries : list (string * node))
| Symlink (target : option node).

(** What [fs.Dirent] exposes of an entry. *)
Inductive dirent_type : Type := DT_File | DT_Dir | DT_Link.

Record Dirent : Type := mkDirent { name : string; dtype : dirent_type }.

#[global] Instance dirent_type_eq_dec : EqDecision dirent_type.
Proof. solve_decision. Defined.

#[global] Instance Dirent_eq_dec : EqDecision Dirent.
Proof. solve_decision. Defined.

Definition isDirectory (e : Dirent) : bool :=
  match dtype e with DT_Dir => true | _ => false end.

Definition isFile (e : Dirent) : bool :=
  match dtype e with DT_File => true | _ => false end.

Module Fs.

Definition type_of (n : node) : dirent_type :=
  match n with
  | RegFile _ _ => DT_File
  | Directory _ _ => DT_Dir
  | Symlink _ => DT_Link
  end.

Definition dirent_of (e : string * node) : Dirent :=
  mkDirent (fst e) (type_of (snd e)).

(** Follow symbolic links to the node they end at. *)
Fixpoint deref (n : node) : option node :=
  match n with
  | Symlink (Some t) => deref t
  | Symlink None => None
  | _ => Some n
  end.

Fixpoint lookup_entry (seg : string) (entries : list (string * node))
    : option node :=
  match entries with
  | [] => None
  | (k, n) :: rest => if String.eqb k seg then Some n else lookup_entry seg rest
  end.

(** Walk the segments of a path from a node; every segment is resolved in
    a directory. *)
Fixpoint walk (n : node) (segs : list string) : option node :=
  match segs with
  | [] => Some n
  | seg :: rest =>
      match deref n with
      | Some (Directory _ entries) =>
          if String.eqb seg EmptyString || String.eqb seg "." then walk n rest
          else match lookup_entry seg entries with
               | Some c => walk c rest
               | None => None
               end
      | _ => None
      end
  end.

(** The node a path names, links followed; the empty path names nothing. *)
Definition resolve (cwd : node) (p : string) : option node :=
  if String.eqb p EmptyString then None
  else match walk cwd (Path.split p) with
       | Some n => deref n
       | None => None
       end.

Definition enoent (syscall p : string) : Error :=
  mkError ("ENOENT: no such file or directory, " +:+ syscall +:+ " '" +:+ p +:+ "'").
Definition eacces (syscall p : string) : Error :=
  mkError ("EACCES: permission denied, " +:+ syscall +:+ " '" +:+ p +:+ "'").
Definition enotdir (syscall p : string) : Error :=
  mkError ("ENOTDIR: not a directory, " +:+ syscall +:+ " '" +:+ p +:+ "'").
Definition eisdir : Error :=
  mkError "EISDIR: illegal operation on a directory, read".

(** [fs.existsSync(p)] *)
Definition existsSync (cwd : node) (p : string) : bool :=
  match resolve cwd p with Some _ => true | None => false end.

(** [fs.readdirSync(p, { withFileTypes: true })] *)
Definition readdirSync (cwd : node) (p : string) : completion (list Dirent) :=
  match resolve cwd p with
  | None => Throw (enoent "scandir" p)
  | Some (Directory true entries) => Normal (map dirent_of entries)
  | Some (Directory false _) => Throw (eacces "scandir" p)
  | Some _ => Throw (enotdir "scandir" p)
  end.

(** [fs.readFileSync(p, 'utf8')] *)
Definition readFileSync (cwd : node) (p : string) : completion string :=
  match resolve cwd p with
  | None => Throw (enoent "open" p)
  | Some (RegFile true content) => Normal content
  | Some (RegFile false _) => Throw (eacces "open" p)
  | Some _ => Throw eisdir
  end.

End Fs.

(** ** A reference JSON reader

    [JSON.parse] belongs to the runtime; the module below is parametric in
    it. [SimpleJson.parse] is a small recursive-descent reader for documents
    whose numbers are integers and whose strings use the single-character
    escapes; it instantiates the parser in the examples. *)

Module SimpleJson.

Definition is_ws (c : ascii) : bool :=
  Ascii.eqb c " " || Ascii.eqb c "009" || Ascii.eqb c "010" || Ascii.eqb c "013".

Fixpoint skip_ws (s : string) : string :=
  match s with
  | String c s' => if is_ws c then skip_ws s' else s
  | EmptyString => s
  end.

Definition unescape (c : ascii) : option ascii :=
  if Ascii.eqb c "034" then Some "034"%char
  else if Ascii.eqb c "\" then Some "\"%char
  else if Ascii.eqb c "/" then Some "/"%char
  else if Ascii.eqb c "b" then Some "008"%char
  else if Ascii.eqb c "f" then Some "012"%char
  else if Ascii.eqb c "n" then Some "010"%char
  else if Ascii.eqb c "r" then Some "013"%char
  else if Ascii.eqb c "t" then Some "009"%char
  else None.

(** The characters of a string literal after its opening quote, and what
    follows the closing quote. *)
Fixpoint read_string (s : string) : option (string * string) :=
  match s with
  | EmptyString => None
  | String c s' =>
      if Ascii.eqb c "034" then Some (EmptyString, s')
      else if Ascii.eqb c "\" then
        match s' with
        | String e s'' =>
            match unescape e, read_string s'' with
            | Some ch, Some (r, rest) => Some (String ch r, rest)
            | _, _ => None
            end
        | EmptyString => None
        end
      else if (nat_of_ascii c <? 32)%nat then None
      else match read_string s' with
           | Some (r, rest) => Some (String c r, rest)
           | None => None
           end
  end.

Definition digit_of (c : ascii) : option Z :=
  let n := nat_of_ascii c in
  if ((48 <=? n) && (n <=? 57))%nat then Some (Z.of_nat (n - 48)) else None.

Fixpoint read_digits (acc : Z) (s : string) : Z * string :=
  match s with
  | String c s' =>
      match digit_of c with
      | Some d => read_digits (10 * acc + d) s'
      | None => (acc, s)
      end
  | EmptyString => (acc, s)
  end.

Definition starts_fraction (s : string) : bool :=
  JsString.startsWith s "." || JsString.startsWith s "e"
  || JsString.startsWith s "E".

(** An integer literal: no leading zero, no fraction, no exponent. *)
Definition read_natural (s : string) : option (Z * string) :=
  match s with
  | String c s' =>
      match digit_of c with
      | Some d =>
          let '(n, rest) :=
            if (d =? 0)%Z then (0%Z, s') else read_digits d s' in
          match rest with
          | String c' _ =>
              match digit_of c' with
              | Some _ => None
              | None => if starts_fraction rest then None else Some (n, rest)
              end
          | EmptyString => Some (n, rest)
          end
      | None => None
      end
  | EmptyString => None
  end.

Definition read_number (s : string) : option (json * string) :=
  match s with
  | String "-" s' =>
      match read_natural s' with
      | Some (n, rest) => Some (JNumber (- n), rest)
      | None => None
      end
  | _ =>
      match read_natural s with
      | Some (n, rest) => Some (JNumber n, rest)
      | None => None
      end
  end.

Definition read_atom (s : string) : option (json * string) :=
  if JsString.startsWith s "null" then Some (JNull, JsString.slice_from 4 s)
  else if JsString.startsWith s "true" then
    Some (JBool true, JsString.slice_from 4 s)
  else if JsString.startsWith s "false" then
    Some (JBool false, JsString.slice_from 5 s)
  else read_number s.

(** A member named twice keeps its place and takes the later value. *)
Fixpoint set_member (k : string) (v : json) (ms : list (string * json))
    : list (string * json) :=
  match ms with
  | [] => [(k, v)]
  | (k', v') :: ms' =>
      if String.eqb k' k then (k', v) :: ms' else (k', v') :: set_member k v ms'
  end.

Fixpoint read_value (fuel : nat) (s : string) : option (json * string) :=
  match fuel with
  | O => None
  | S fuel' =>
      match skip_ws s with
      | String "{" r =>
          match skip_ws r with
          | String "}" r' => Some (JObject [], r')
          | r' => read_members fuel' r' []
          end
      | String "[" r =>
          match skip_ws r with
          | String "]" r' => Some (JArray [], r')
          | r' => read_items fuel' r' []
          end
      | String "034" r =>
          match read_string r with
          | Some (str, rest) => Some (JString str, rest)
          | None => None
          end
      | s' => read_atom s'
      end
  end
with read_items (fuel : nat) (s : string) (acc : list json)
    : option (json * string) :=
  match fuel with
  | O => None
  | S fuel' =>
      match read_value fuel' s with
      | Some (v, rest) =>
          match skip_ws rest with
          | String "," r => read_items fuel' r (acc ++ [v])
          | String "]" r => Some (JArray (acc ++ [v]), r)
          | _ => None
          end
      | None => None
      end
  end
with read_members (fuel : nat) (s : string) (acc : list (string * json))
    : option (json * string) :=
  match fuel with
  | O => None
  | S fuel' =>
      match skip_ws s with
      | String "034" r =>
          match read_string r with
          | Some (key, rest) =>
              match skip_ws rest with
              | String ":" r' =>
                  match read_value fuel' r' with
                  | Some (v, rest') =>
                      match skip_ws rest' with
                      | String "," r'' =>
                          read_members fuel' r'' (set_member key v acc)
                      | String "}" r'' =>
                          Some (JObject (set_member key v acc), r'')
                      | _ => None
                      end
                  | None => None
                  end
              | _ => None
              end
          | None => None
          end
      | _ => None
      end
  end.

Definition syntax_error : Error :=
  mkError "Unexpected token in JSON".

Definition parse (text : string) : completion json :=
  match read_value (2 * String.length text + 2) text with
  | Some (v, rest) =>
      match skip_ws rest with
      | EmptyString => Normal v
      | _ => Throw syntax_error
      end
  | None => Throw syntax_error
  end.

End SimpleJson.

(** ** Effects: exceptions and the console, over a filesystem that is only read *)

(** The state an accessor runs in: the filesystem below the working
    directory and the lines written to the diagnostic output so far. *)
Record World : Type := mkWorld { fs : node; console : list string }.

Definition M (A : Type) : Type := World -> completion A * World.

Definition ret {A} (a : A) : M A := fun w => (Normal a, w).

Definition throw {A} (e : Error) : M A := fun w => (Throw e, w).

Definition bind {A B} (m : M A) (k : A -> M B) : M B :=
  fun w =>
    match m w with
    | (Normal a, w') => k a w'
    | (Throw e, w') => (Throw e, w')
    end.

(** [try { body } catch (error) { handler }] *)
Definition try_catch {A} (body : M A) (handler : Error -> M A) : M A :=
  fun w =>
    match body w with
    | (Normal a, w') => (Normal a, w')
    | (Throw e, w') => handler e w'
    end.

(** Lift a runtime call that completes without touching the state. *)
Definition lift {A} (c : completion A) : M A := fun w => (c, w).

Declare Scope js_scope.
Delimit Scope js_scope with js.
Notation "'let*' x ':=' c 'in' k" := (bind c (fun x => k))
  (at level 10, x name, c at level 100, k at level 200) : js_scope.
Notation "'do' c1 'then' c2" := (bind c1 (fun _ => c2))
  (at level 10, c1 at level 100, c2 at level 200) : js_scope.

Definition fs_existsSync (p : string) : M bool :=
  fun w => (Normal (Fs.existsSync (fs w) p), w).

Definition fs_readdirSync (p : string) : M (list Dirent) :=
  fun w => (Fs.readdirSync (fs w) p, w).

Definition fs_readFileSync (p : string) : M string :=
  fun w => (Fs.readFileSync (fs w) p, w).

Definition console_warn (line : string) : M unit :=
  fun w => (Normal tt, mkWorld (fs w) (console w ++ [line])).

(** [a || b] on effectful operands: [b] is evaluated only when [a] is false. *)
Definition orM (a b : M bool) : M bool :=
  bind a (fun x => if x then ret true else b).

(** ** Plain objects used as mappings *)

(** The own properties of an object and its prototype; [None] is the
    default [Object.prototype]. *)
Record JsObject : Type := mkObject { own : gmap string json; proto : option json }.

(** The literal [{}] *)
Definition empty_object : JsObject := mkObject ∅ None.

Definition is_object_or_null (v : json) : bool :=
  match v with
  | JNull | JArray _ | JObject _ => true
  | _ => false
  end.

Definition has_member (k : string) (ms : list (string * json)) : bool :=
  existsb (fun m => String.eqb (fst m) k) ms.

(** Whether [Object.prototype.__proto__], an accessor, is what an assignment
    to the key [__proto__] reaches: no own property of that name, and a
    prototype chain that leads to [Object.prototype] without a data property
    of that name. *)
Definition reaches_proto_accessor (obj : JsObject) : bool :=
  match own obj !! "__proto__" with
  | Some _ => false
  | None =>
      match proto obj with
      | Some JNull => false
      | Some (JObject ms) => negb (has_member "__proto__" ms)
      | _ => true
      end
  end.

(** [obj[k] = v]. Every key creates or updates an own property, except the
    key [__proto__] while the inherited accessor is in reach: the accessor
    replaces the prototype by [v] when [v] is an object or null and ignores
    any other value. *)
Definition js_set (obj : JsObject) (k : string) (v : json) : JsObject :=
  if String.eqb k "__proto__" && reaches_proto_accessor obj then
    if is_object_or_null v then mkObject (own obj) (Some v) else obj
  else mkObject (<[k := v]> (own obj)) (proto obj).

(** ** The module (index.js) *)

Section Index.

(** [JSON.parse], supplied by the runtime. *)
Variable JSON_parse : string -> completion json.

Local Open Scope js_scope.

(** The body of [for (const entry of entries)] in [findDomainDirectory];
    the [return] inside the loop ends the enumeration. *)
Fixpoint findDomainDirectory_loop (entries : list Dirent) : M (option string) :=
  match entries with
  | [] => ret None
  | entry :: rest =>
      if isDirectory entry
         && negb (JsString.startsWith (name entry) ".")
         && negb (String.eqb (name entry) "node_modules")
         && negb (String.eqb (name entry) "dist")
      then
        let domainPath := name entry in
        let* marked :=
          orM (fs_existsSync (Path.join domainPath "Schemas"))
            (orM (fs_existsSync (Path.join domainPath "Workflows"))
               (fs_existsSync (Path.join domainPath "Tasks"))) in
        if marked then ret (Some domainPath)
        else findDomainDirectory_loop rest
      else findDomainDirectory_loop rest
  end.

Definition findDomainDirectory : M (option string) :=
  let* entries := fs_readdirSync "." in
  findDomainDirectory_loop entries.

(** The body of [for (const entry of entries)] in [loadJsonFiles]. *)
Fixpoint loadJsonFiles_loop (dirPath : string) (entries : list Dirent)
    (files : JsObject) : M JsObject :=
  match entries with
  | [] => ret files
  | entry :: rest =>
      if isFile entry && JsString.endsWith (name entry) ".json" then
        let* files' :=
          try_catch
            (let filePath := Path.join dirPath (name entry) in
             let* text := fs_readFileSync filePath in
             let* content := lift (JSON_parse text) in
             let baseName := JsString.replace (name entry) ".json" EmptyString in
             ret (js_set files baseName content))
            (fun error =>
               do console_warn
                    ("Warning: Could not load " +:+ name entry +:+ ": "
                     +:+ message error)
               then ret files) in
        loadJsonFiles_loop dirPath rest files'
      else loadJsonFiles_loop dirPath rest files
  end.

Definition loadJsonFiles (dirPath : string) : M JsObject :=
  let files := empty_object in
  let* present := fs_existsSync dirPath in
  if negb present then ret files
  else
    let* entries := fs_readdirSync dirPath in
    loadJsonFiles_loop dirPath entries files.

(** [!domainDir] for a value that is a string or null. *)
Definition is_falsy (domainDir : option string) : bool :=
  match domainDir with
  | None => true
  | Some d => String.eqb d EmptyString
  end.

(** A string that is not falsy. *)
Definition the_string (domainDir : option string) : string :=
  match domainDir with
  | None => EmptyString
  | Some d => d
  end.

Definition getDomainConfig : M json :=
  try_catch
    (let* text := fs_readFileSync "vnext.config.json" in
     lift (JSON_parse text))
    (fun error => ret JNull).

Definition getSchemas : M JsObject :=
  let* domainDir := findDomainDirectory in
  if is_falsy domainDir then ret empty_object
  else loadJsonFiles (Path.join (the_string domainDir) "Schemas").

Definition getWorkflows : M JsObject :=
  let* domainDir := findDomainDirectory in
  if is_falsy domainDir then ret empty_object
  else loadJsonFiles (Path.join (the_string domainDir) "Workflows").

Definition getTasks : M JsObject :=
  let* domainDir := findDomainDirectory in
  if is_falsy domainDir then ret empty_object
  else loadJsonFiles (Path.join (the_string domainDir) "Tasks").

Definition getViews : M JsObject :=
  let* domainDir := findDomainDirectory in
  if is_falsy domainDir then ret empty_object
  else loadJsonFiles (Path.join (the_string domainDir) "Views").

Definition getFunctions : M JsObject :=
  let* domainDir := findDomainDirectory in
  if is_falsy domainDir then ret empty_object
  else loadJsonFiles (Path.join (the_string domainDir) "Functions").

Definition getExtensions : M JsObject :=
  let* domainDir := findDomainDirectory in
  if is_falsy domainDir then ret empty_object
  else loadJsonFiles (Path.join (the_string domainDir) "Extensions").

Definition getAvailableTypes : M (list string) :=
  ret ["schemas"; "workflows"; "tasks"; "views"; "functions"; "extensions"].

Definition getDomainName : M (option string) :=
  findDomainDirectory.

End Index.

(** ** Sample filesystems *)

Module Samples.

(** Text with every apostrophe turned into a double quote, to write JSON
    documents legibly. *)
Fixpoint quoted (s : string) : string :=
  match s with
  | EmptyString => EmptyString
  | String c s' =>
      String (if Ascii.eqb c "'" then "034"%char else c) (quoted s')
  end.

Definition file (content : string) : node := RegFile true content.
Definition dir (entries : list (string * node)) : node := Directory true entries.

(** [core/Workflows/flow1.json] next to hidden and reserved directories. *)
Definition repo : node :=
  dir [ (".git", dir [("Schemas", dir [])]);
        ("node_modules", dir [("Tasks", dir [])]);
        ("README.md", file "# readme");
        ("core", dir [("Workflows",
                        dir [("flow1.json", file (quoted "{'key':'flow1'}"))])]);
        ("other", dir [("Schemas", dir [])]) ].

Definition world (cwd : node) : World := mkWorld cwd [].

End Samples.


(** ** Vocabulary of the specification *)

(** The test the locator applies to an entry before looking beneath it. *)
Definition eligible (e : Dirent) : bool :=
  isDirectory e
  && negb (JsString.startsWith (name e) ".")
  && negb (String.eqb (name e) "node_modules")
  && negb (String.eqb (name e) "dist").

(** The marker test of the locator on a directory name. *)
Definition marked (cwd : node) (d : string) : bool :=
  Fs.existsSync cwd (Path.join d "Schemas")
  || Fs.existsSync cwd (Path.join d "Workflows")
  || Fs.existsSync cwd (Path.join d "Tasks").

(** An entry the locator passes over without looking beneath it: not a
    directory, hidden, or reserved. *)
Definition skipped (e : Dirent) : Prop :=
  isDirectory e = false
  \/ JsString.startsWith (name e) "." = true
  \/ name e = "node_modules"
  \/ name e = "dist".

(** One of the three canonical paths exists under the entry. *)
Definition marker_exists (cwd : node) (e : Dirent) : Prop :=
  exists m, m ∈ ["Schemas"; "Workflows"; "Tasks"]
            /\ Fs.existsSync cwd (Path.join (name e) m) = true.

Definition qualifies (cwd : node) (e : Dirent) : Prop :=
  ~ skipped e /\ marker_exists cwd e.

(** [r] is the name of the first qualifying entry of the listing, or null
    when the listing has none. *)
Definition locates (cwd : node) (entries : list Dirent) (r : option string)
    : Prop :=
  match r with
  | Some d =>
      exists before e after,
        entries = before ++ e :: after
        /\ Forall (fun e' => ~ qualifies cwd e') before
        /\ qualifies cwd e
        /\ d = name e
  | None => Forall (fun e => ~ qualifies cwd e) entries
  end.

(** A computation that only reads the filesystem: from a given filesystem
    it completes the same way and writes the same lines, whatever the
    diagnostic output held before. *)
Definition reads_fs {A} (m : M A) : Prop :=
  forall cwd, exists r out,
    forall c, m (mkWorld cwd c) = (r, mkWorld cwd (c ++ out)).

(** An accessor leaves the filesystem as it found it. *)
Definition leaves_fs {A} (acc : M A) : Prop :=
  forall w, fs (snd (acc w)) = fs w.

(** The result of an accessor is a function of the filesystem alone. *)
Definition function_of_fs {A} (acc : M A) : Prop :=
  forall w1 w2, fs w1 = fs w2 -> fst (acc w1) = fst (acc w2).

(** Invoking an accessor again, in the state its first invocation left,
    gives an equal result. *)
Definition repeatable {A} (acc : M A) : Prop :=
  forall w, fst (acc (snd (acc w))) = fst (acc w).

Definition deterministic {A} (acc : M A) : Prop :=
  leaves_fs acc /\ function_of_fs acc /\ repeatable acc.

(** The loop of the loader as a function of the filesystem: the mapping it
    builds and the warnings it writes. *)
Section LoaderModel.

Variable JSON_parse : string -> completion json.

(** [JSON.parse(fs.readFileSync(p, 'utf8'))] *)
Definition read_json (cwd : node) (p : string) : completion json :=
  match Fs.readFileSync cwd p with
  | Normal text => JSON_parse text
  | Throw e => Throw e
  end.

Definition is_json_file (e : Dirent) : bool :=
  isFile e && JsString.endsWith (name e) ".json".

Definition baseName (e : Dirent) : string :=
  JsString.replace (name e) ".json" EmptyString.

Definition warning (e : Dirent) (err : Error) : string :=
  "Warning: Could not load " +:+ name e +:+ ": " +:+ message err.

Fixpoint load_entries (cwd : node) (dirPath : string) (entries : list Dirent)
    (files : JsObject) : JsObject * list string :=
  match entries with
  | [] => (files, [])
  | e :: rest =>
      if is_json_file e then
        match read_json cwd (Path.join dirPath (name e)) with
        | Normal content =>
            load_entries cwd dirPath rest (js_set files (baseName e) content)
        | Throw err =>
            let '(files', out) := load_entries cwd dirPath rest files in
            (files', warning e err :: out)
        end
      else load_entries cwd dirPath rest files
  end.

(** A file of the listing that the loader cannot turn into a value: it
    cannot be read, or its text does not parse. *)
Definition fails_to_load (cwd : node) (dirPath : string) (e : Dirent) : Prop :=
  is_json_file e = true
  /\ ((exists err, Fs.readFileSync cwd (Path.join dirPath (name e)) = Throw err)
      \/ (exists text err,
            Fs.readFileSync cwd (Path.join dirPath (name e)) = Normal text
            /\ JSON_parse text = Throw err)).

End LoaderModel.

(** The two files of the loader scenario, and the document in the first. *)
Definition a_json : Dirent := mkDirent "a.json" DT_File.
Definition b_json : Dirent := mkDirent "b.json" DT_File.
Definition x1_text : string := Samples.quoted "{'x':1}".
Definition x1_value : json := JObject [("x", JNumber 1)].

(** A string free of the path separator. *)
Fixpoint no_sep (s : string) : bool :=
  match s with
  | EmptyString => true
  | String c s' => negb (Ascii.eqb c Path.sep) && no_sep s'
  end.

(** Filesystems of the examples. *)
Module Examples.
Import Samples.

(** A component directory with a good file, a bad file and a third one. *)
Definition three_files : node :=
  dir [("core",
        dir [("Schemas",
              dir [("a.json", file x1_text);
                   ("b.json", file "{");
                   ("c.json", file "2")])])].

(** The component directory of the loader scenario. *)
Definition two_files : node :=
  dir [("core",
        dir [("Schemas",
              dir [("a.json", file x1_text); ("b.json", file "{")])])].

(** A file whose name holds [.json] twice. *)
Definition twice_json : node :=
  dir [("core", dir [("Schemas", dir [("a.jsonb.json", file "1")])])].

(** A file whose stem is [__proto__]. *)
Definition proto_file : node :=
  dir [("core", dir [("Schemas", dir [("__proto__.json", file x1_text)])])].

(** No domain: only hidden, reserved and unmarked entries. *)
Definition no_domain : node :=
  dir [(".git", dir [("Schemas", dir [])]);
       ("dist", dir [("Workflows", dir [])]);
       ("docs", dir [("notes.md", file "notes")]);
       ("Tasks", file "not a directory")].

(** A working directory that cannot be listed. *)
Definition unreadable : node := Directory false [("core", dir [("Schemas", dir [])])].

(** A configuration file next to the domain, well-formed or not. *)
Definition configured (text : string) : node :=
  dir [("vnext.config.json", file text); ("core", dir [("Schemas", dir [])])].

(** The marker [Schemas] is a regular file. *)
Definition marker_is_file : node :=
  dir [("README.md", file "readme");
       ("core", dir [("Schemas", file "not a directory")]);
       ("other", dir [("Schemas", dir [])])].

End Examples.

(** The line the loader writes for an entry, if it writes one. *)
Definition failure_warning (JSON_parse : string -> completion json)
    (cwd : node) (dirPath : string) (e : Dirent) : option string :=
  if is_json_file e then
    match read_json JSON_parse cwd (Path.join dirPath (name e)) with
    | Normal _ => None
    | Throw err => Some (warning e err)
    end
  else None.

(** More filesystems of the examples. *)
Module Cases.
Import Samples.

(** Two files whose names lose their first [.json] to the same stem. *)
Definition colliding : node :=
  dir [("core",
        dir [("Schemas",
              dir [(".jsonx.json", file "1"); ("x.json.json", file "2")])])].

(** A component directory with a subdirectory, a link, a file of another
    kind and one loadable file. *)
Definition mixed : node :=
  dir [("core",
        dir [("Schemas",
              dir [("nested", dir [("deep.json", file "1")]);
                   ("link.json", Symlink (Some (file "2")));
                   ("notes.txt", file "3");
                   ("good.json", file "4");
                   ("bad.json", file "{")])])].

(** A domain in which every .json file parses. *)
Definition healthy : node :=
  dir [("core",
        dir [("Schemas",
              dir [("a.json", file x1_text);
                   ("drafts", dir [("b.json", file "2")])]);
             ("Workflows", dir [("flow.json", file "3")])])].

(** A domain whose Schemas directory cannot be listed. *)
Definition unlistable_schemas : node :=
  dir [("core",
        dir [("Schemas", Directory false [("a.json", file x1_text)])])].

End Cases.

(** ** The test script (test.js): the tests that run the module against
    the filesystem *)

(** [typeof v === 'object'] for a parsed value: objects, arrays and null. *)
Definition typeof_object (v : json) : bool :=
  match v with
  | JNull | JArray _ | JObject _ => true
  | JBool _ | JNumber _ | JString _ => false
  end.

(** [v === null] *)
Definition is_null (v : json) : bool :=
  match v with
  | JNull => true
  | _ => false
  end.

Definition expectedDirs : list string :=
  ["Schemas"; "Workflows"; "Tasks"; "Views"; "Functions"; "Extensions"].

Section TestScript.

Variable JSON_parse : string -> completion json.

Local Open Scope js_scope.

(** Test 4, [getDomainConfig handles missing config gracefully]. *)
Definition test4 : M unit :=
  let* config := getDomainConfig JSON_parse in
  if negb (is_null config) && negb (typeof_object config) then
    throw (mkError "getDomainConfig should return null or an object")
  else ret tt.

(** Test 8, [vnext.config.json is valid JSON if it exists]. *)
Definition test8 : M unit :=
  let* present := fs_existsSync "./vnext.config.json" in
  if present then
    let* text := fs_readFileSync "./vnext.config.json" in
    let* config := lift (JSON_parse text) in
    if negb (typeof_object config) || is_null config then
      throw (mkError "vnext.config.json should contain a valid JSON object")
    else ret tt
  else ret tt.

(** The loop of Test 9 over the expected directories. *)
Fixpoint test9_count (domainPath : string) (dirs : list string)
    (foundDirs : nat) : M nat :=
  match dirs with
  | [] => ret foundDirs
  | dir :: rest =>
      let* found := fs_existsSync (Path.join domainPath dir) in
      test9_count domainPath rest (if found then S foundDirs else foundDirs)
  end.

(** Test 9, [Domain directory structure is valid]. *)
Definition test9 : M unit :=
  let* domainName := getDomainName in
  if negb (is_falsy domainName) then
    let domainPath := the_string domainName in
    let* present := fs_existsSync domainPath in
    if negb present then
      throw (mkError ("Domain directory " +:+ domainPath +:+ " does not exist"))
    else
      let* foundDirs := test9_count domainPath expectedDirs 0 in
      if Nat.eqb foundDirs 0 then
        throw (mkError "No vnext structure directories found in domain directory")
      else ret tt
  else ret tt.

End TestScript.

Section TestScriptJsonFiles.

Variable JSON_parse : string -> completion json.

Local Open Scope js_scope.

(** The loop of [findJsonFiles] over the entries of [dir]; [recurse] is the
    function itself, called on a subdirectory. A call that does not
    finish is [None]. *)
Fixpoint findJsonFiles_loop (recurse : string -> M (option (list string)))
    (dir : string) (entries : list Dirent) (files : list string)
    : M (option (list string)) :=
  match entries with
  | [] => ret (Some files)
  | entry :: rest =>
      let fullPath := Path.join dir (name entry) in
      if isDirectory entry then
        let* found := recurse fullPath in
        match found with
        | Some sub => findJsonFiles_loop recurse dir rest (files ++ sub)
        | None => ret None
        end
      else if isFile entry && JsString.endsWith (name entry) ".json" then
        findJsonFiles_loop recurse dir rest (files ++ [fullPath])
      else findJsonFiles_loop recurse dir rest files
  end.

(** [findJsonFiles(dir)] of Test 10, with a bound on the depth of the
    recursion. *)
Fixpoint findJsonFiles (fuel : nat) (dir : string) : M (option (list string)) :=
  match fuel with
  | O => ret None
  | S fuel' =>
      let* entries := fs_readdirSync dir in
      findJsonFiles_loop (findJsonFiles fuel') dir entries []
  end.

(** The loop of Test 10 over the files found. *)
Fixpoint test10_check (jsonFiles : list string) : M unit :=
  match jsonFiles with
  | [] => ret tt
  | file :: rest =>
      do try_catch
           (let* text := fs_readFileSync file in
            let* parsed := lift (JSON_parse text) in
            ret tt)
           (fun error =>
              throw (mkError ("Invalid JSON in file " +:+ file +:+ ": "
                              +:+ message error)))
      then test10_check rest
  end.

(** Test 10, [JSON files in domain directory are valid]. *)
Definition test10 (fuel : nat) : M (option unit) :=
  let* domainName := getDomainName in
  let* proceed :=
    if is_falsy domainName then ret false
    else fs_existsSync (the_string domainName) in
  if proceed then
    let* jsonFiles := findJsonFiles fuel (the_string domainName) in
    match jsonFiles with
    | Some files => do test10_check files then ret (Some tt)
    | None => ret None
    end
  else ret (Some tt).

End TestScriptJsonFiles.

(** ** Directory trees as [findJsonFiles] walks them *)

(** A name a directory entry can bear. *)
Definition valid_name (k : string) : bool :=
  negb (String.eqb k EmptyString) && negb (String.eqb k ".")
  && negb (String.eqb k "..") && no_sep k.

Definition is_dir (n : node) : bool :=
  match n with
  | Directory _ _ => true
  | _ => false
  end.

(** A directory whose entries, and those of the directories below it, have
    valid names, no two alike in one directory. *)
Inductive wf_dir : node -> Prop :=
| wf_dir_intro (readable : bool) (entries : list (string * node)) :
    NoDup (map fst entries) ->
    (forall k c, (k, c) ∈ entries -> valid_name k = true) ->
    (forall k c, (k, c) ∈ entries -> is_dir c = true -> wf_dir c) ->
    wf_dir (Directory readable entries).

(** How deep directories nest in a tree. *)
Fixpoint depth (n : node) : nat :=
  match n with
  | Directory _ entries =>
      S ((fix deepest (es : list (string * node)) : nat :=
            match es with
            | [] => O
            | (_, c) :: rest => Nat.max (depth c) (deepest rest)
            end) entries)
  | _ => O
  end.

(** The .json files below the directory [n] found at path [p], directory by
    directory, in the order of the listings; an unreadable directory ends
    the walk with its error. *)
Fixpoint json_files (p : string) (n : node) : completion (list string) :=
  match n with
  | Directory true entries =>
      (fix walk_entries (es : list (string * node)) : completion (list string) :=
         match es with
         | [] => Normal []
         | (k, c) :: rest =>
             let here :=
               match c with
               | Directory _ _ => json_files (p +:+ "/" +:+ k) c
               | RegFile _ _ =>
                   if JsString.endsWith k ".json"
                   then Normal [p +:+ "/" +:+ k] else Normal []
               | Symlink _ => Normal []
               end in
             match here with
             | Normal found =>
                 match walk_entries rest with
                 | Normal more => Normal (found ++ more)
                 | Throw e => Throw e
                 end
             | Throw e => Throw e
             end
         end) entries
  | Directory false _ => Throw (Fs.eacces "scandir" p)
  | _ => Throw (Fs.enotdir "scandir" p)
  end.

(** A relative path made of valid names. *)
Definition clean_path (p : string) : Prop :=
  exists segs, segs <> [] /\ Forall (fun k => valid_name k = true) segs
               /\ p = String.concat "/" segs.

(** The outcome of a walk that finished. *)
Definition finished {A} (c : completion A) : completion (option A) :=
  match c with
  | Normal a => Normal (Some a)
  | Throw e => Throw e
  end.


(** * Properties *)

(** ** Running the effects *)

Lemma bind_normal {A B} (m : M A) (k : A -> M B) w a w' :
  m w = (Normal a, w') -> bind m k w = k a w'.
Proof. intros H. unfold bind. by rewrite H. Qed.

Lemma bind_throw {A B} (m : M A) (k : A -> M B) w e w' :
  m w = (Throw e, w') -> bind m k w = (Throw e, w').
Proof. intros H. unfold bind. by rewrite H. Qed.

Lemma orM_existsSync p (m : M bool) w :
  orM (fs_existsSync p) m w
  = if Fs.existsSync (fs w) p then (Normal true, w) else m w.
Proof. unfold orM, bind, fs_existsSync. by destruct (Fs.existsSync (fs w) p). Qed.

(** ** The domain locator *)

Lemma findDomainDirectory_loop_find entries w :
  findDomainDirectory_loop entries w
  = (Normal (option_map name
               (List.find (fun e => eligible e && marked (fs w) (name e)) entries)),
     w).
Proof.
  induction entries as [|e rest IH]; [reflexivity|].
  cbn [findDomainDirectory_loop List.find]. fold (eligible e).
  destruct (eligible e); cbn [andb]; [|exact IH].
  unfold bind. rewrite !orM_existsSync. unfold fs_existsSync, marked.
  destruct (Fs.existsSync (fs w) (Path.join (name e) "Schemas")); [reflexivity|].
  destruct (Fs.existsSync (fs w) (Path.join (name e) "Workflows")); [reflexivity|].
  destruct (Fs.existsSync (fs w) (Path.join (name e) "Tasks")); [reflexivity|].
  exact IH.
Qed.

Lemma findDomainDirectory_listing w entries :
  Fs.readdirSync (fs w) "." = Normal entries ->
  findDomainDirectory w = findDomainDirectory_loop entries w.
Proof.
  intros H. unfold findDomainDirectory, bind, fs_readdirSync. by rewrite H.
Qed.

Lemma eligible_not_skipped e : eligible e = true <-> ~ skipped e.
Proof.
  unfold eligible, skipped. rewrite !andb_true_iff, !negb_true_iff.
  split.
  - intros [[[Hd Hh] Hn] Ht] [H|[H|[H|H]]]; try congruence.
    + apply String.eqb_neq in Hn; congruence.
    + apply String.eqb_neq in Ht; congruence.
  - intros H. repeat split.
    + destruct (isDirectory e); [reflexivity | exfalso; tauto].
    + destruct (JsString.startsWith (name e) "."); [exfalso; tauto | reflexivity].
    + apply String.eqb_neq. tauto.
    + apply String.eqb_neq. tauto.
Qed.

Lemma marked_marker_exists cwd e :
  marked cwd (name e) = true <-> marker_exists cwd e.
Proof.
  unfold marked, marker_exists. rewrite !orb_true_iff. split.
  - intros [[H|H]|H]; eexists; (split; [|exact H]); set_solver.
  - intros (m & Hm & H).
    apply elem_of_cons in Hm as [->|Hm]; [auto|].
    apply elem_of_cons in Hm as [->|Hm]; [auto|].
    apply elem_of_cons in Hm as [->|Hm]; [auto|].
    by apply elem_of_nil in Hm.
Qed.

Lemma qualifies_test cwd e :
  eligible e && marked cwd (name e) = true <-> qualifies cwd e.
Proof.
  unfold qualifies.
  rewrite andb_true_iff, eligible_not_skipped, marked_marker_exists. tauto.
Qed.

Lemma find_first {A} (f : A -> bool) (l : list A) :
  match List.find f l with
  | Some x =>
      exists before after,
        l = before ++ x :: after
        /\ Forall (fun y => f y = false) before /\ f x = true
  | None => Forall (fun y => f y = false) l
  end.
Proof.
  induction l as [|a l IH]; cbn [List.find]; [constructor|].
  destruct (f a) eqn:Ha.
  - exists [], l. auto.
  - destruct (List.find f l) as [x|].
    + destruct IH as (before & after & -> & Hb & Hx).
      exists (a :: before), after. auto.
    + constructor; auto.
Qed.

Lemma Forall_not_qualifies cwd l :
  Forall (fun y => eligible y && marked cwd (name y) = false) l ->
  Forall (fun e => ~ qualifies cwd e) l.
Proof.
  intros H. eapply Forall_impl; [exact H|].
  intros e He Hq. apply qualifies_test in Hq. congruence.
Qed.

(** C1: for every listing of the working directory, the locator returns the
    name of the first entry, in enumeration order, that is a directory, is
    neither hidden nor named node_modules or dist, and has one of Schemas,
    Workflows or Tasks existing beneath it; it returns null when no entry
    of the listing is such. *)
Theorem findDomainDirectory_first_qualifying (w : World) (entries : list Dirent) :
  Fs.readdirSync (fs w) "." = Normal entries ->
  exists r, findDomainDirectory w = (Normal r, w) /\ locates (fs w) entries r.
Proof.
  intros Hls. rewrite (findDomainDirectory_listing _ _ Hls).
  rewrite findDomainDirectory_loop_find.
  eexists; split; [reflexivity|].
  pose proof (find_first (fun e => eligible e && marked (fs w) (name e)) entries) as H.
  destruct (List.find _ entries) as [x|]; cbn [option_map locates].
  - destruct H as (before & after & -> & Hb & Hx).
    exists before, x, after. repeat split; auto using Forall_not_qualifies.
    + by apply qualifies_test in Hx as [? ?].
    + by apply qualifies_test in Hx as [? ?].
  - by apply Forall_not_qualifies.
Qed.

Lemma find_none_all {A} (f : A -> bool) (l : list A) :
  (forall x, x ∈ l -> f x = false) -> List.find f l = None.
Proof.
  induction l as [|a l IH]; intros H; cbn [List.find]; [reflexivity|].
  rewrite (H a) by set_solver. apply IH. intros x Hx. apply H. set_solver.
Qed.

Lemma findDomainDirectory_none w entries :
  Fs.readdirSync (fs w) "." = Normal entries ->
  (forall e, e ∈ entries -> ~ skipped e -> ~ marker_exists (fs w) e) ->
  findDomainDirectory w = (Normal None, w).
Proof.
  intros Hls Hno. rewrite (findDomainDirectory_listing _ _ Hls).
  rewrite findDomainDirectory_loop_find, find_none_all; [reflexivity|].
  intros e He. apply not_true_is_false. intros Hq.
  apply qualifies_test in Hq as [Hs Hm]. exact (Hno e He Hs Hm).
Qed.

Lemma findDomainDirectory_throws w e :
  Fs.readdirSync (fs w) "." = Throw e ->
  findDomainDirectory w = (Throw e, w).
Proof.
  intros H. unfold findDomainDirectory, bind, fs_readdirSync. by rewrite H.
Qed.

Lemma existsSync_false_readFileSync cwd p :
  Fs.existsSync cwd p = false -> Fs.readFileSync cwd p = Throw (Fs.enoent "open" p).
Proof.
  unfold Fs.existsSync, Fs.readFileSync.
  destruct (Fs.resolve cwd p); [discriminate | reflexivity].
Qed.

Lemma readdirSync_existsSync cwd p entries :
  Fs.readdirSync cwd p = Normal entries -> Fs.existsSync cwd p = true.
Proof.
  unfold Fs.existsSync, Fs.readdirSync.
  destruct (Fs.resolve cwd p); [reflexivity | discriminate].
Qed.

Section Accessors.

Variable JSON_parse : string -> completion json.

(** C3: when the working directory can be listed and no entry that is a
    directory, not hidden and not reserved has Schemas, Workflows or Tasks
    beneath it, getDomainName returns null and each of the six component
    accessors returns an empty mapping. *)
Theorem no_domain_null_and_empty (w : World) (entries : list Dirent) :
  Fs.readdirSync (fs w) "." = Normal entries ->
  (forall e, e ∈ entries -> ~ skipped e -> ~ marker_exists (fs w) e) ->
  getDomainName w = (Normal None, w)
  /\ getSchemas JSON_parse w = (Normal empty_object, w)
  /\ getWorkflows JSON_parse w = (Normal empty_object, w)
  /\ getTasks JSON_parse w = (Normal empty_object, w)
  /\ getViews JSON_parse w = (Normal empty_object, w)
  /\ getFunctions JSON_parse w = (Normal empty_object, w)
  /\ getExtensions JSON_parse w = (Normal empty_object, w).
Proof.
  intros Hls Hno.
  pose proof (findDomainDirectory_none w entries Hls Hno) as H.
  unfold getDomainName, getSchemas, getWorkflows, getTasks, getViews,
    getFunctions, getExtensions.
  rewrite !(bind_normal _ _ _ _ _ H). cbn [is_falsy]. auto 10.
Qed.

(** C4: the loader applied to a path that does not exist returns an empty
    mapping and raises nothing. *)
Theorem loadJsonFiles_missing_directory (w : World) (dirPath : string) :
  Fs.existsSync (fs w) dirPath = false ->
  loadJsonFiles JSON_parse dirPath w = (Normal empty_object, w).
Proof.
  intros H. unfold loadJsonFiles, bind, fs_existsSync. by rewrite H.
Qed.

(** C6: getDomainConfig returns null when vnext.config.json does not
    exist, the parsed value when the file can be read and parses, and null,
    without raising, when the file cannot be read or does not parse. *)
Theorem getDomainConfig_null_or_parsed (w : World) :
  (Fs.existsSync (fs w) "vnext.config.json" = false ->
   getDomainConfig JSON_parse w = (Normal JNull, w))
  /\ (forall text v,
        Fs.readFileSync (fs w) "vnext.config.json" = Normal text ->
        JSON_parse text = Normal v ->
        getDomainConfig JSON_parse w = (Normal v, w))
  /\ (forall text e,
        Fs.readFileSync (fs w) "vnext.config.json" = Normal text ->
        JSON_parse text = Throw e ->
        getDomainConfig JSON_parse w = (Normal JNull, w))
  /\ (forall e,
        Fs.readFileSync (fs w) "vnext.config.json" = Throw e ->
        getDomainConfig JSON_parse w = (Normal JNull, w)).
Proof.
  unfold getDomainConfig, try_catch, bind, fs_readFileSync, lift, ret.
  repeat split.
  - intros H. by rewrite (existsSync_false_readFileSync _ _ H).
  - intros text v -> ->. reflexivity.
  - intros text e -> ->. reflexivity.
  - intros e ->. reflexivity.
Qed.

(** C7: when listing the working directory fails, getDomainName and each
    of the six component accessors raise that same error. *)
Theorem unreadable_working_directory_propagates (w : World) (e : Error) :
  Fs.readdirSync (fs w) "." = Throw e ->
  getDomainName w = (Throw e, w)
  /\ getSchemas JSON_parse w = (Throw e, w)
  /\ getWorkflows JSON_parse w = (Throw e, w)
  /\ getTasks JSON_parse w = (Throw e, w)
  /\ getViews JSON_parse w = (Throw e, w)
  /\ getFunctions JSON_parse w = (Throw e, w)
  /\ getExtensions JSON_parse w = (Throw e, w).
Proof.
  intros H. pose proof (findDomainDirectory_throws w e H) as Hf.
  unfold getDomainName, getSchemas, getWorkflows, getTasks, getViews,
    getFunctions, getExtensions.
  rewrite !(bind_throw _ _ _ _ _ Hf). auto 10.
Qed.

(** C8: getAvailableTypes returns the six type names, in the same order,
    in every state, and leaves the state alone. *)
Theorem getAvailableTypes_constant (w : World) :
  getAvailableTypes w
  = (Normal ["schemas"; "workflows"; "tasks"; "views"; "functions"; "extensions"],
     w).
Proof. reflexivity. Qed.

End Accessors.

(** ** Computations that only read the filesystem *)

Lemma reads_fs_ret {A} (a : A) : reads_fs (ret a).
Proof. intros cwd. exists (Normal a), []. intros c. by rewrite app_nil_r. Qed.

Lemma reads_fs_lift {A} (r : completion A) : reads_fs (lift r).
Proof. intros cwd. exists r, []. intros c. by rewrite app_nil_r. Qed.

Lemma reads_fs_bind {A B} (m : M A) (k : A -> M B) :
  reads_fs m -> (forall a, reads_fs (k a)) -> reads_fs (bind m k).
Proof.
  intros Hm Hk cwd. destruct (Hm cwd) as (r & out & Hr).
  destruct r as [a|e].
  - destruct (Hk a cwd) as (r' & out' & Hr').
    exists r', (out ++ out'). intros c.
    unfold bind. by rewrite Hr, Hr', app_assoc.
  - exists (Throw e), out. intros c. unfold bind. by rewrite Hr.
Qed.

Lemma reads_fs_try_catch {A} (m : M A) (h : Error -> M A) :
  reads_fs m -> (forall e, reads_fs (h e)) -> reads_fs (try_catch m h).
Proof.
  intros Hm Hh cwd. destruct (Hm cwd) as (r & out & Hr).
  destruct r as [a|e].
  - exists (Normal a), out. intros c. unfold try_catch. by rewrite Hr.
  - destruct (Hh e cwd) as (r' & out' & Hr').
    exists r', (out ++ out'). intros c.
    unfold try_catch. by rewrite Hr, Hr', app_assoc.
Qed.

Lemma reads_fs_existsSync p : reads_fs (fs_existsSync p).
Proof.
  intros cwd. exists (Normal (Fs.existsSync cwd p)), []. intros c.
  unfold fs_existsSync. cbn. by rewrite app_nil_r.
Qed.

Lemma reads_fs_readdirSync p : reads_fs (fs_readdirSync p).
Proof.
  intros cwd. exists (Fs.readdirSync cwd p), []. intros c.
  unfold fs_readdirSync. cbn. by rewrite app_nil_r.
Qed.

Lemma reads_fs_readFileSync p : reads_fs (fs_readFileSync p).
Proof.
  intros cwd. exists (Fs.readFileSync cwd p), []. intros c.
  unfold fs_readFileSync. cbn. by rewrite app_nil_r.
Qed.

Lemma reads_fs_console_warn line : reads_fs (console_warn line).
Proof. intros cwd. exists (Normal tt), [line]. reflexivity. Qed.

Lemma reads_fs_orM (a b : M bool) : reads_fs a -> reads_fs b -> reads_fs (orM a b).
Proof.
  intros Ha Hb. apply reads_fs_bind; [exact Ha|].
  intros [|]; [apply reads_fs_ret | exact Hb].
Qed.

Create HintDb reads_fs.
#[local] Hint Resolve reads_fs_ret reads_fs_lift reads_fs_existsSync
  reads_fs_readdirSync reads_fs_readFileSync reads_fs_console_warn
  reads_fs_orM : reads_fs.

Lemma world_eta w : w = mkWorld (fs w) (console w).
Proof. by destruct w. Qed.

Lemma reads_fs_deterministic {A} (acc : M A) : reads_fs acc -> deterministic acc.
Proof.
  intros H.
  assert (Hfun : function_of_fs acc).
  { intros w1 w2 Hfs. destruct (H (fs w1)) as (r & out & Hr).
    rewrite (world_eta w1), (world_eta w2), <- Hfs, !Hr. reflexivity. }
  assert (Hleaves : leaves_fs acc).
  { intros w. destruct (H (fs w)) as (r & out & Hr).
    rewrite (world_eta w) at 1. by rewrite Hr. }
  split; [exact Hleaves|]. split; [exact Hfun|].
  intros w. apply Hfun, Hleaves.
Qed.

Lemma reads_fs_findDomainDirectory_loop entries :
  reads_fs (findDomainDirectory_loop entries).
Proof.
  induction entries as [|e rest IH]; cbn [findDomainDirectory_loop];
    [apply reads_fs_ret|].
  destruct (_ && _); [|exact IH].
  apply reads_fs_bind; [auto 6 with reads_fs|].
  intros [|]; [apply reads_fs_ret | exact IH].
Qed.

Lemma reads_fs_findDomainDirectory : reads_fs findDomainDirectory.
Proof.
  apply reads_fs_bind; [apply reads_fs_readdirSync|].
  apply reads_fs_findDomainDirectory_loop.
Qed.

(** ** Strings: prefixes, first occurrences, the [.json] stems *)

Lemma startsWith_split s p :
  JsString.startsWith s p = true -> s = p +:+ JsString.slice_from (String.length p) s.
Proof.
  revert s. induction p as [|a p IH]; intros s H; [reflexivity|].
  destruct s as [|b s]; [discriminate|]. simpl in H |- *.
  apply andb_true_iff in H as [Hab Hp]. apply Ascii.eqb_eq in Hab as ->.
  change (String b s = String b (p +:+ JsString.slice_from (String.length p) s)).
  f_equal. by apply IH.
Qed.

(** Replacing a pattern by nothing removes its first occurrence, when there
    is one. *)
Lemma replace_empty_inv n p k :
  JsString.replace n p EmptyString = k ->
  (JsString.indexOf n p = None /\ n = k)
  \/ (exists A B, n = A +:+ p +:+ B /\ k = A +:+ B).
Proof.
  unfold JsString.replace. intros <-.
  destruct (JsString.indexOf n p) as [i|] eqn:Hi; [right | left; auto].
  assert (Hcut : forall s, JsString.startsWith s p = true ->
            exists A B, s = A +:+ p +:+ B
              /\ String.substring 0 0 s +:+ EmptyString
                  +:+ JsString.slice_from (0 + String.length p) s = A +:+ B).
  { intros s Hs. exists EmptyString, (JsString.slice_from (String.length p) s).
    split; [by apply startsWith_split|]. by destruct s. }
  revert i Hi. induction n as [|c n IH]; intros i Hi;
    cbn [JsString.indexOf] in Hi;
    destruct (JsString.startsWith _ p) eqn:Hp; try discriminate.
  - injection Hi as <-. by apply Hcut.
  - injection Hi as <-. by apply Hcut.
  - destruct (JsString.indexOf n p) as [j|]; [|discriminate].
    injection Hi as <-. destruct (IH j eq_refl) as (A & B & Hn & Hk).
    exists (String c A), B. split.
    + change (String c n = String c (A +:+ p +:+ B)). by rewrite <- Hn.
    + change (String c (String.substring 0 j n +:+ EmptyString
                        +:+ JsString.slice_from (j + String.length p) n)
              = String c (A +:+ B)).
      by rewrite Hk.
Qed.

Lemma append_nil_l (B : string) : EmptyString +:+ B = B.
Proof. reflexivity. Qed.

Lemma append_cons c (A B : string) : String c A +:+ B = String c (A +:+ B).
Proof. reflexivity. Qed.

Lemma append_empty_inv (A B : string) :
  A +:+ B = EmptyString -> A = EmptyString /\ B = EmptyString.
Proof.
  destruct A; [rewrite append_nil_l; auto | rewrite append_cons; discriminate].
Qed.

(** Among the names ending in [.json], only [a.json] has the stem [a]. *)
Lemma stem_a_inv n :
  JsString.endsWith n ".json" = true ->
  JsString.replace n ".json" EmptyString = "a" -> n = "a.json".
Proof.
  intros He Hr. apply replace_empty_inv in Hr as [[_ ->]|(A & B & -> & Hk)];
    [discriminate|].
  destruct A as [|c A].
  - rewrite append_nil_l in Hk. subst B. discriminate.
  - rewrite append_cons in Hk. injection Hk as <- Hk. symmetry in Hk.
    apply append_empty_inv in Hk as [-> ->]. reflexivity.
Qed.

Lemma stem_b_inv n :
  JsString.endsWith n ".json" = true ->
  JsString.replace n ".json" EmptyString = "b" -> n = "b.json".
Proof.
  intros He Hr. apply replace_empty_inv in Hr as [[_ ->]|(A & B & -> & Hk)];
    [discriminate|].
  destruct A as [|c A].
  - rewrite append_nil_l in Hk. subst B. discriminate.
  - rewrite append_cons in Hk. injection Hk as <- Hk. symmetry in Hk.
    apply append_empty_inv in Hk as [-> ->]. reflexivity.
Qed.

(** A name that holds [.json] only as its suffix loses exactly that
    suffix. *)
Lemma startsWith_empty s : JsString.startsWith s EmptyString = true.
Proof. by destruct s. Qed.

Lemma startsWith_json_append c s :
  JsString.startsWith (String c s) ".json" = false ->
  JsString.startsWith (String c (s +:+ ".json")) ".json" = false.
Proof.
  intros H. rewrite <- append_cons.
  destruct s as [|c2 [|c3 [|c4 [|c5 s]]]];
    repeat rewrite append_cons; rewrite ?append_nil_l;
    cbn [JsString.startsWith] in *; rewrite ?startsWith_empty in *;
    repeat match goal with
      | |- context [Ascii.eqb ?a ?b] =>
          destruct (Ascii.eqb_spec a b); [subst|]; cbn [andb] in *
      end; try reflexivity; try discriminate.
Qed.

Lemma replace_only_suffix stem :
  JsString.indexOf stem ".json" = None ->
  JsString.replace (stem +:+ ".json") ".json" EmptyString = stem.
Proof.
  intros H. unfold JsString.replace.
  assert (Hi : JsString.indexOf (stem +:+ ".json") ".json" = Some (String.length stem)).
  { induction stem as [|c stem IH]; [reflexivity|].
    cbn [JsString.indexOf] in H.
    destruct (JsString.startsWith (String c stem) ".json") eqn:Hs; [discriminate|].
    destruct (JsString.indexOf stem ".json") eqn:Hrec; [discriminate|].
    rewrite append_cons. cbn [JsString.indexOf].
    rewrite (startsWith_json_append _ _ Hs), (IH eq_refl). reflexivity. }
  rewrite Hi. clear.
  induction stem as [|c stem IH]; [reflexivity|].
  rewrite append_cons. cbn [String.length String.substring Nat.add JsString.slice_from].
  rewrite append_cons. f_equal. exact IH.
Qed.

(** ** Assignment to a key of a mapping *)

Lemma js_set_lookup obj k' v k :
  k <> "__proto__" ->
  own (js_set obj k' v) !! k = if decide (k' = k) then Some v else own obj !! k.
Proof.
  intros Hk. unfold js_set.
  destruct (String.eqb k' "__proto__") eqn:Hk'; cbn [andb].
  - apply String.eqb_eq in Hk'. subst k'.
    rewrite decide_False by congruence.
    destruct (reaches_proto_accessor obj).
    + by destruct (is_object_or_null v).
    + cbn. by rewrite lookup_insert_ne by congruence.
  - cbn. rewrite lookup_insert. by destruct (decide (k' = k)).
Qed.

Lemma js_set_plain obj k v :
  k <> "__proto__" -> js_set obj k v = mkObject (<[k := v]> (own obj)) (proto obj).
Proof.
  intros Hk. unfold js_set. apply String.eqb_neq in Hk. by rewrite Hk.
Qed.

(** ** The component loader *)

Section Loader.

Variable JSON_parse : string -> completion json.

(** The loop never raises, leaves the filesystem alone, and builds what
    its functional model builds. *)
Lemma loadJsonFiles_loop_model dirPath entries files cwd c :
  loadJsonFiles_loop JSON_parse dirPath entries files (mkWorld cwd c)
  = (Normal (load_entries JSON_parse cwd dirPath entries files).1,
     mkWorld cwd (c ++ (load_entries JSON_parse cwd dirPath entries files).2)).
Proof.
  revert files c. induction entries as [|e rest IH]; intros files c.
  - cbn. by rewrite app_nil_r.
  - cbn [loadJsonFiles_loop load_entries]. fold (is_json_file e).
    destruct (is_json_file e); [|apply IH].
    unfold bind at 1, try_catch, bind, fs_readFileSync, lift, read_json.
    cbn [fs].
    destruct (Fs.readFileSync cwd (Path.join dirPath (name e))) as [text|err].
    + destruct (JSON_parse text) as [content|err].
      * cbn. apply IH.
      * cbn. rewrite IH. fold (warning e err).
        destruct (load_entries JSON_parse cwd dirPath rest files) as [files' out]. cbn.
        by rewrite <- app_assoc.
    + cbn. rewrite IH. fold (warning e err).
      destruct (load_entries JSON_parse cwd dirPath rest files) as [files' out]. cbn.
      by rewrite <- app_assoc.
Qed.

Lemma loadJsonFiles_model w dirPath entries :
  Fs.readdirSync (fs w) dirPath = Normal entries ->
  loadJsonFiles JSON_parse dirPath w
  = (Normal (load_entries JSON_parse (fs w) dirPath entries empty_object).1,
     mkWorld (fs w)
       (console w ++ (load_entries JSON_parse (fs w) dirPath entries empty_object).2)).
Proof.
  intros Hls. unfold loadJsonFiles. unfold bind at 1. unfold fs_existsSync.
  rewrite (readdirSync_existsSync _ _ _ Hls). cbn [negb].
  unfold bind, fs_readdirSync. rewrite Hls.
  rewrite (world_eta w) at 1. apply loadJsonFiles_loop_model.
Qed.

Lemma reads_fs_loadJsonFiles_loop dirPath entries files :
  reads_fs (loadJsonFiles_loop JSON_parse dirPath entries files).
Proof.
  intros cwd. eexists _, _. intros c. apply loadJsonFiles_loop_model.
Qed.

Lemma reads_fs_loadJsonFiles dirPath : reads_fs (loadJsonFiles JSON_parse dirPath).
Proof.
  apply reads_fs_bind; [apply reads_fs_existsSync|].
  intros present. destruct (negb present); [apply reads_fs_ret|].
  apply reads_fs_bind; [apply reads_fs_readdirSync|].
  intros entries. apply reads_fs_loadJsonFiles_loop.
Qed.

Lemma fails_to_load_read_json cwd dirPath e :
  fails_to_load JSON_parse cwd dirPath e ->
  is_json_file e = true
  /\ exists err, read_json JSON_parse cwd (Path.join dirPath (name e)) = Throw err.
Proof.
  intros [Hj [[err H]|(text & err & H & Hp)]]; (split; [exact Hj|]);
    exists err; unfold read_json; rewrite H; [reflexivity | exact Hp].
Qed.

(** What ends up under a key other than [__proto__], when every file with
    that stem completes the same way [r]. *)
Lemma load_entries_key cwd dirPath k r entries files :
  k <> "__proto__" ->
  (forall e, e ∈ entries -> is_json_file e = true -> baseName e = k ->
             read_json JSON_parse cwd (Path.join dirPath (name e)) = r) ->
  own (load_entries JSON_parse cwd dirPath entries files).1 !! k
  = match r with
    | Normal v =>
        if existsb (fun e => is_json_file e && String.eqb (baseName e) k) entries
        then Some v else own files !! k
    | Throw _ => own files !! k
    end.
Proof.
  intros Hk. revert files. induction entries as [|e rest IH]; intros files Hr.
  - cbn. by destruct r.
  - assert (Hrest : forall e', e' ∈ rest -> is_json_file e' = true ->
              baseName e' = k ->
              read_json JSON_parse cwd (Path.join dirPath (name e')) = r).
    { intros e' He'. apply Hr. set_solver. }
    cbn [load_entries existsb].
    destruct (is_json_file e) eqn:Hj; cbn [andb]; [|by apply IH].
    destruct (String.eqb (baseName e) k) eqn:Hb.
    + apply String.eqb_eq in Hb.
      rewrite (Hr e) by (auto; set_solver).
      destruct r as [v|err].
      * rewrite (IH _ Hrest), js_set_lookup by exact Hk.
        rewrite decide_True by exact Hb. cbn [orb].
        by destruct (existsb _ rest).
      * destruct (load_entries JSON_parse cwd dirPath rest files) as [files' out] eqn:Hm.
        cbn [fst]. specialize (IH files Hrest). by rewrite Hm in IH.
    + apply String.eqb_neq in Hb. cbn [orb].
      destruct (read_json JSON_parse cwd (Path.join dirPath (name e))) as [v|err].
      * rewrite (IH _ Hrest), js_set_lookup by exact Hk.
        by rewrite decide_False by exact Hb.
      * destruct (load_entries JSON_parse cwd dirPath rest files) as [files' out] eqn:Hm.
        cbn [fst]. specialize (IH files Hrest). by rewrite Hm in IH.
Qed.

Lemma load_entries_warns cwd dirPath e err entries files :
  e ∈ entries -> is_json_file e = true ->
  read_json JSON_parse cwd (Path.join dirPath (name e)) = Throw err ->
  warning e err ∈ (load_entries JSON_parse cwd dirPath entries files).2.
Proof.
  intros He Hj Hr. revert files.
  induction entries as [|e' rest IH]; intros files; [by apply elem_of_nil in He|].
  cbn [load_entries].
  apply elem_of_cons in He as [<-|He].
  - rewrite Hj, Hr.
    destruct (load_entries JSON_parse cwd dirPath rest files) as [files' out]. cbn. set_solver.
  - destruct (is_json_file e'); [|by apply IH].
    destruct (read_json JSON_parse cwd (Path.join dirPath (name e'))) as [v|err'];
      [by apply IH|].
    specialize (IH He files).
    destruct (load_entries JSON_parse cwd dirPath rest files) as [files' out]. cbn in *. set_solver.
Qed.

(** A file that fails to load leaves no trace in the mapping. *)
Lemma load_entries_skip_failure cwd dirPath before bad after files :
  fails_to_load JSON_parse cwd dirPath bad ->
  (load_entries JSON_parse cwd dirPath (before ++ bad :: after) files).1
  = (load_entries JSON_parse cwd dirPath (before ++ after) files).1.
Proof.
  intros Hbad. apply fails_to_load_read_json in Hbad as [Hj [err Hr]].
  revert files. induction before as [|e rest IH]; intros files.
  - cbn [app load_entries]. rewrite Hj, Hr.
    by destruct (load_entries JSON_parse cwd dirPath after files).
  - cbn [app load_entries].
    destruct (is_json_file e); [|apply IH].
    destruct (read_json JSON_parse cwd (Path.join dirPath (name e))); [apply IH|].
    specialize (IH files).
    destruct (load_entries JSON_parse cwd dirPath (rest ++ bad :: after) files),
      (load_entries JSON_parse cwd dirPath (rest ++ after) files). exact IH.
Qed.

(** A directory holding only [a.json], which loads, and [b.json], which
    does not. *)
Lemma load_entries_only_a_b cwd dirPath v err entries files :
  read_json JSON_parse cwd (Path.join dirPath "a.json") = Normal v ->
  read_json JSON_parse cwd (Path.join dirPath "b.json") = Throw err ->
  (forall e, e ∈ entries -> e = a_json \/ e = b_json) ->
  (load_entries JSON_parse cwd dirPath entries files).1
  = if decide (a_json ∈ entries) then js_set files "a" v else files.
Proof.
  intros Ha Hb. revert files.
  induction entries as [|e rest IH]; intros files Hall.
  - cbn. rewrite decide_False; [reflexivity | apply not_elem_of_nil].
  - assert (Hrest : forall e', e' ∈ rest -> e' = a_json \/ e' = b_json).
    { intros e' He'. apply Hall. set_solver. }
    cbn [load_entries].
    destruct (Hall e ltac:(set_solver)) as [->| ->].
    + change (is_json_file a_json) with true. cbn iota.
      change (name a_json) with "a.json". rewrite Ha.
      change (baseName a_json) with "a". rewrite (IH _ Hrest).
      rewrite (decide_True (P := a_json ∈ a_json :: rest)) by set_solver.
      destruct (decide (a_json ∈ rest)); [|reflexivity].
      rewrite !js_set_plain by discriminate. cbn. by rewrite insert_insert_eq.
    + change (is_json_file b_json) with true. cbn iota.
      change (name b_json) with "b.json". rewrite Hb.
      specialize (IH files Hrest).
      destruct (load_entries JSON_parse cwd dirPath rest files) as [files' out]. cbn [fst] in *.
      rewrite IH.
      destruct (decide (a_json ∈ rest)) as [Hin|Hin].
      * rewrite decide_True by set_solver. reflexivity.
      * rewrite decide_False; [reflexivity|].
        intros [Heq|Hin']%elem_of_cons; [discriminate | contradiction].
Qed.

(** The key a loaded file ends up under, when no later file of the listing
    shares it: its name without the first [.json]. *)
Lemma load_entries_records cwd dirPath before e after files v :
  is_json_file e = true ->
  read_json JSON_parse cwd (Path.join dirPath (name e)) = Normal v ->
  baseName e <> "__proto__" ->
  (forall e', e' ∈ after -> is_json_file e' = true -> baseName e' <> baseName e) ->
  own (load_entries JSON_parse cwd dirPath (before ++ e :: after) files).1
    !! baseName e = Some v.
Proof.
  intros Hj Hr Hk Hafter. revert files.
  induction before as [|e0 before IH]; intros files.
  - cbn [app load_entries]. rewrite Hj, Hr.
    rewrite (load_entries_key cwd dirPath (baseName e) (Throw (mkError EmptyString)))
      by (auto; intros e' He' Hj' Hk'; by destruct (Hafter e' He' Hj')).
    rewrite js_set_lookup by exact Hk. by rewrite decide_True.
  - cbn [app load_entries].
    destruct (is_json_file e0); [|apply IH].
    destruct (read_json JSON_parse cwd (Path.join dirPath (name e0))); [apply IH|].
    specialize (IH files).
    by destruct (load_entries JSON_parse cwd dirPath (before ++ e :: after) files).
Qed.

End Loader.

Section LoaderProperties.

Variable JSON_parse : string -> completion json.

(** C2: for every component directory whose entries include a file a.json
    holding the document x:1 and a file b.json holding text that does not
    parse, the loader raises nothing and returns a mapping in which a is
    mapped to the parsed document and b is absent, having written a
    warning that names b.json; the mapping holds the key a alone when the
    directory holds these two files alone. In general a file that fails
    to load leaves the mapping as the remaining entries build it. *)
Theorem loadJsonFiles_tolerates_bad_file :
  (forall (w : World) (dirPath : string) (entries : list Dirent)
          (bad_text : string) (err : Error),
      Fs.readdirSync (fs w) dirPath = Normal entries ->
      a_json ∈ entries ->
      b_json ∈ entries ->
      Fs.readFileSync (fs w) (Path.join dirPath "a.json") = Normal x1_text ->
      JSON_parse x1_text = Normal x1_value ->
      Fs.readFileSync (fs w) (Path.join dirPath "b.json") = Normal bad_text ->
      JSON_parse bad_text = Throw err ->
      exists files out,
        loadJsonFiles JSON_parse dirPath w
        = (Normal files, mkWorld (fs w) (console w ++ out))
        /\ own files !! "a" = Some x1_value
        /\ own files !! "b" = None
        /\ "Warning: Could not load b.json: " +:+ message err ∈ out
        /\ ((forall e, e ∈ entries -> e = a_json \/ e = b_json) ->
            files = mkObject {["a" := x1_value]} None))
  /\ (forall (w : World) (dirPath : string) (before after : list Dirent)
             (bad : Dirent) (files : JsObject),
        fails_to_load JSON_parse (fs w) dirPath bad ->
        exists result w1 w2,
          loadJsonFiles_loop JSON_parse dirPath (before ++ bad :: after) files w
          = (Normal result, w1)
          /\ loadJsonFiles_loop JSON_parse dirPath (before ++ after) files w
             = (Normal result, w2)).
Proof.
  split.
  - intros w dirPath entries bad_text err Hls Ha Hb Hra Hpa Hrb Hpb.
    assert (Hja : read_json JSON_parse (fs w) (Path.join dirPath "a.json")
                  = Normal x1_value) by (unfold read_json; by rewrite Hra).
    assert (Hjb : read_json JSON_parse (fs w) (Path.join dirPath "b.json")
                  = Throw err) by (unfold read_json; by rewrite Hrb).
    eexists _, _. split; [apply (loadJsonFiles_model _ _ _ _ Hls)|].
    split; [|split; [|split]].
    + rewrite (load_entries_key JSON_parse (fs w) dirPath "a" (Normal x1_value));
        [|discriminate|].
      * replace (existsb _ entries) with true; [reflexivity|].
        symmetry. apply existsb_exists. exists a_json.
        split; [by apply list_elem_of_In | reflexivity].
      * intros e _ Hj Hk. apply andb_true_iff in Hj as [_ He].
        by rewrite (stem_a_inv _ He Hk).
    + rewrite (load_entries_key JSON_parse (fs w) dirPath "b" (Throw err));
        [reflexivity|discriminate|].
      intros e _ Hj Hk. apply andb_true_iff in Hj as [_ He].
      by rewrite (stem_b_inv _ He Hk).
    + apply (load_entries_warns JSON_parse (fs w) dirPath b_json err);
        [exact Hb | reflexivity | exact Hjb].
    + intros Honly.
      rewrite (load_entries_only_a_b JSON_parse _ _ _ _ _ _ Hja Hjb Honly).
      rewrite decide_True by exact Ha.
      rewrite js_set_plain by discriminate. cbn. by rewrite insert_empty.
  - intros w dirPath before after bad files Hbad.
    rewrite (world_eta w), !loadJsonFiles_loop_model.
    rewrite (load_entries_skip_failure JSON_parse _ _ _ _ _ _ Hbad).
    eexists _, _, _. split; reflexivity.
Qed.

(** C9: each of the nine accessors leaves the filesystem as it found it,
    returns a result that is a function of the filesystem alone, and so
    returns an equal result when invoked a second time. *)
Theorem accessors_deterministic :
  deterministic (getDomainConfig JSON_parse)
  /\ deterministic (getSchemas JSON_parse)
  /\ deterministic (getWorkflows JSON_parse)
  /\ deterministic (getTasks JSON_parse)
  /\ deterministic (getViews JSON_parse)
  /\ deterministic (getFunctions JSON_parse)
  /\ deterministic (getExtensions JSON_parse)
  /\ deterministic getAvailableTypes
  /\ deterministic getDomainName.
Proof.
  assert (Hacc : forall sub,
             reads_fs (bind findDomainDirectory (fun domainDir =>
               if is_falsy domainDir then ret empty_object
               else loadJsonFiles JSON_parse (Path.join (the_string domainDir) sub)))).
  { intros sub. apply reads_fs_bind; [apply reads_fs_findDomainDirectory|].
    intros d. destruct (is_falsy d);
      [apply reads_fs_ret | apply reads_fs_loadJsonFiles]. }
  repeat match goal with |- _ /\ _ => split end;
    apply reads_fs_deterministic; try apply Hacc.
  - apply reads_fs_try_catch; [|intros e; apply reads_fs_ret].
    apply reads_fs_bind; [apply reads_fs_readFileSync|].
    intros text. apply reads_fs_lift.
  - apply reads_fs_ret.
  - apply reads_fs_findDomainDirectory.
Qed.

End LoaderProperties.

(** ** Paths of the form [domain/Marker] *)

Lemma split_segment d r :
  no_sep d = true -> Path.split (d +:+ String Path.sep r) = d :: Path.split r.
Proof.
  induction d as [|c d IH]; intros H; [reflexivity|].
  cbn [no_sep] in H. apply andb_true_iff in H as [Hc Hd].
  apply negb_true_iff in Hc.
  rewrite append_cons. cbn [Path.split]. rewrite Hc, (IH Hd). reflexivity.
Qed.

Lemma length_append (d t : string) :
  String.length (d +:+ t) = (String.length d + String.length t)%nat.
Proof.
  induction d as [|c d IH]; [reflexivity|].
  rewrite append_cons. cbn [String.length]. by rewrite IH.
Qed.

Lemma slice_from_append d t n :
  (n <= String.length t)%nat ->
  JsString.slice_from (String.length (d +:+ t) - n) (d +:+ t)
  = JsString.slice_from (String.length t - n) t.
Proof.
  intros Hn. induction d as [|c d IH]; [reflexivity|].
  rewrite append_cons. cbn [String.length].
  assert (Hlen : (n <= String.length (d +:+ t))%nat).
  { rewrite length_append. lia. }
  replace (S (String.length (d +:+ t)) - n)%nat
    with (S (String.length (d +:+ t) - n)) by lia.
  exact IH.
Qed.

Lemma endsWith_append d t p :
  (String.length p <= String.length t)%nat ->
  JsString.endsWith (d +:+ t) p = JsString.endsWith t p.
Proof.
  intros Hp. unfold JsString.endsWith.
  rewrite slice_from_append by exact Hp. f_equal.
  rewrite length_append.
  apply Nat.leb_le in Hp as Hp'. rewrite Hp'. apply Nat.leb_le. lia.
Qed.

Lemma not_hidden_not_dots d :
  JsString.startsWith d "." = false -> d <> "." /\ d <> "..".
Proof. intros H. split; intros ->; discriminate. Qed.

(** [path.join(d, m)] of an entry name that is not hidden and one of the
    three markers is the two joined by the separator. *)
Lemma join_marker d m :
  d <> EmptyString -> no_sep d = true -> JsString.startsWith d "." = false ->
  m ∈ ["Schemas"; "Workflows"; "Tasks"] ->
  Path.join d m = d +:+ "/" +:+ m
  /\ Path.split (d +:+ "/" +:+ m) = [d; m].
Proof.
  intros Hne Hsep Hdot Hm.
  assert (Hsplit : Path.split (d +:+ "/" +:+ m) = [d; m]).
  { change (d +:+ "/" +:+ m) with (d +:+ String Path.sep m).
    rewrite (split_segment _ _ Hsep).
    repeat (apply elem_of_cons in Hm as [->|Hm]; [reflexivity|]).
    by apply elem_of_nil in Hm. }
  split; [|exact Hsplit].
  destruct (not_hidden_not_dots d Hdot) as [Hd1 Hd2].
  apply String.eqb_neq in Hne as Hne', Hd1, Hd2.
  assert (Hm' : String.eqb m EmptyString = false /\ String.eqb m "." = false
                /\ String.eqb m ".." = false
                /\ JsString.endsWith ("/" +:+ m) "/" = false).
  { repeat (apply elem_of_cons in Hm as [->|Hm]; [by repeat split|]).
    by apply elem_of_nil in Hm. }
  destruct Hm' as (Hm1 & Hm2 & Hm3 & Hm4).
  unfold Path.join. rewrite Hne', Hm1. unfold Path.normalize.
  assert (Hnonempty : forall t, String.eqb (d +:+ t) EmptyString = false).
  { intros t. destruct d; [by apply String.eqb_neq in Hne'|reflexivity]. }
  assert (Habs : JsString.startsWith (d +:+ "/" +:+ m) "/" = false).
  { destruct d as [|c d]; [by apply String.eqb_neq in Hne'|].
    cbn [no_sep] in Hsep. apply andb_true_iff in Hsep as [Hc _].
    apply negb_true_iff in Hc. rewrite append_cons. cbn [JsString.startsWith].
    rewrite Ascii.eqb_sym. unfold Path.sep in Hc. by rewrite Hc. }
  assert (Hq : Path.normalizeString (d +:+ "/" +:+ m) true = d +:+ "/" +:+ m).
  { unfold Path.normalizeString. rewrite Hsplit. cbn [fold_left].
    unfold Path.normalize_step. rewrite Hne', Hd1, Hd2. cbn [orb app].
    rewrite Hm1, Hm2, Hm3. reflexivity. }
  rewrite Hnonempty, Habs. cbn [negb]. rewrite Hq, Hnonempty.
  rewrite (endsWith_append d ("/" +:+ m) "/")
    by (rewrite length_append; cbn [String.length]; lia).
  by rewrite Hm4.
Qed.

Lemma lookup_entry_middle d n before after :
  d ∉ map fst before ->
  Fs.lookup_entry d (before ++ (d, n) :: after) = Some n.
Proof.
  induction before as [|[k x] before IH]; intros Hd.
  - cbn. by rewrite String.eqb_refl.
  - cbn [app Fs.lookup_entry].
    destruct (String.eqb k d) eqn:Hk.
    + apply String.eqb_eq in Hk. subst k. exfalso. apply Hd.
      apply elem_of_cons. by left.
    + apply IH. intros Hin. apply Hd. apply elem_of_cons. by right.
Qed.

Lemma NoDup_middle {A} (before after : list A) (x : A) :
  NoDup (before ++ x :: after) -> x ∉ before.
Proof.
  intros H Hin. apply NoDup_app in H as (_ & Hdisj & _).
  apply (Hdisj x Hin). set_solver.
Qed.

(** What lies at [d/m] when [d] is a directory of the working directory.  *)
Lemma resolve_child readable entries d r children m :
  d <> EmptyString -> no_sep d = true -> JsString.startsWith d "." = false ->
  m ∈ ["Schemas"; "Workflows"; "Tasks"] ->
  Fs.lookup_entry d entries = Some (Directory r children) ->
  Fs.resolve (Directory readable entries) (Path.join d m)
  = match Fs.lookup_entry m children with
    | Some n => Fs.deref n
    | None => None
    end.
Proof.
  intros Hne Hsep Hdot Hm Hd.
  destruct (join_marker d m Hne Hsep Hdot Hm) as [-> Hsplit].
  destruct (not_hidden_not_dots d Hdot) as [Hd1 _].
  apply String.eqb_neq in Hne as Hne', Hd1.
  unfold Fs.resolve. rewrite Hsplit.
  assert (Hp : String.eqb (d +:+ "/" +:+ m) EmptyString = false).
  { destruct d; [by apply String.eqb_neq in Hne'|reflexivity]. }
  rewrite Hp. cbn [Fs.walk Fs.deref]. rewrite Hne', Hd1, Hd. cbn [orb Fs.deref].
  assert (Hm' : String.eqb m EmptyString || String.eqb m "." = false).
  { repeat (apply elem_of_cons in Hm as [->|Hm]; [reflexivity|]).
    by apply elem_of_nil in Hm. }
  rewrite Hm'. by destruct (Fs.lookup_entry m children).
Qed.

Lemma find_app_skip {A} (f : A -> bool) (l1 l2 : list A) :
  Forall (fun x => f x = false) l1 -> List.find f (l1 ++ l2) = List.find f l2.
Proof.
  induction 1 as [|x l1 Hx _ IH]; [reflexivity|].
  cbn [app List.find]. by rewrite Hx.
Qed.

(** C10: when the first entry of the working directory that is a directory,
    not hidden and not reserved holds an entry named Schemas, Workflows or
    Tasks that is a regular file, the locator, and so getDomainName, still
    selects that directory: the marker need only exist. *)
Theorem marker_file_selects_domain
    (entries before after : list (string * node)) (d : string) (r : bool)
    (children : list (string * node)) (m : string) (rd : bool)
    (content : string) (out : list string) :
  entries = before ++ (d, Directory r children) :: after ->
  NoDup (map fst entries) ->
  d <> EmptyString -> no_sep d = true ->
  eligible (mkDirent d DT_Dir) = true ->
  Forall (fun e => eligible (Fs.dirent_of e) = false) before ->
  m ∈ ["Schemas"; "Workflows"; "Tasks"] ->
  Fs.lookup_entry m children = Some (RegFile rd content) ->
  let w := mkWorld (Directory true entries) out in
  findDomainDirectory w = (Normal (Some d), w)
  /\ getDomainName w = (Normal (Some d), w).
Proof.
  intros Hentries Hnodup Hne Hsep Hel Hbefore Hm Hfile w.
  assert (Hdot : JsString.startsWith d "." = false).
  { unfold eligible in Hel. cbn [name] in Hel.
    apply andb_true_iff in Hel as [Hel _]. apply andb_true_iff in Hel as [Hel _].
    apply andb_true_iff in Hel as [_ Hel]. by apply negb_true_iff in Hel. }
  assert (Hlook : Fs.lookup_entry d entries = Some (Directory r children)).
  { rewrite Hentries. apply lookup_entry_middle.
    rewrite Hentries, map_app in Hnodup. by apply NoDup_middle in Hnodup. }
  assert (Hex : Fs.existsSync (fs w) (Path.join d m) = true).
  { unfold Fs.existsSync. cbn [fs w].
    rewrite (resolve_child _ _ _ _ _ _ Hne Hsep Hdot Hm Hlook), Hfile.
    reflexivity. }
  assert (Hfind : findDomainDirectory w = (Normal (Some d), w)).
  { rewrite (findDomainDirectory_listing w (map Fs.dirent_of entries))
      by reflexivity.
    rewrite findDomainDirectory_loop_find. rewrite Hentries, map_app.
    rewrite find_app_skip.
    - cbn [map List.find]. change (Fs.dirent_of (d, Directory r children))
        with (mkDirent d DT_Dir). rewrite Hel. cbn [andb name].
      replace (marked (fs w) d) with true; [reflexivity|].
      symmetry. apply (marked_marker_exists _ (mkDirent d DT_Dir)).
      exists m. auto.
    - apply Forall_map. eapply Forall_impl; [exact Hbefore|].
      intros e He. cbn. by rewrite He. }
  split; [exact Hfind | exact Hfind].
Qed.

Lemma no_marker_by_test cwd entries :
  forallb (fun e => negb (eligible e && marked cwd (name e))) entries = true ->
  forall e, e ∈ entries -> ~ skipped e -> ~ marker_exists cwd e.
Proof.
  intros Hall e He Hs Hm.
  rewrite forallb_forall in Hall. specialize (Hall e).
  rewrite <- list_elem_of_In in Hall. specialize (Hall He).
  apply negb_true_iff in Hall.
  assert (Hq : qualifies cwd e) by (split; assumption).
  apply qualifies_test in Hq. congruence.
Qed.

(** ** The properties on sample filesystems *)

(** C1 on a repository whose domain directory [core] follows a hidden and a
    reserved directory that both hold a marker. *)
Lemma findDomainDirectory_first_qualifying_witness :
  Fs.readdirSync (fs (Samples.world Samples.repo)) "."
  = Normal [mkDirent ".git" DT_Dir; mkDirent "node_modules" DT_Dir;
            mkDirent "README.md" DT_File; mkDirent "core" DT_Dir;
            mkDirent "other" DT_Dir]
  /\ exists r,
       findDomainDirectory (Samples.world Samples.repo)
       = (Normal r, Samples.world Samples.repo)
       /\ locates Samples.repo
            [mkDirent ".git" DT_Dir; mkDirent "node_modules" DT_Dir;
             mkDirent "README.md" DT_File; mkDirent "core" DT_Dir;
             mkDirent "other" DT_Dir]
            r.
Proof.
  split; [reflexivity|].
  apply (findDomainDirectory_first_qualifying (Samples.world Samples.repo)).
  reflexivity.
Defined.

(** The scenario of the specification: with [core/Workflows/flow1.json] and
    neither Schemas nor Tasks under [core], the domain is [core] and the
    workflows are the one document, under the key [flow1]. *)
Example scenario_core_workflows :
  getDomainName (Samples.world Samples.repo)
  = (Normal (Some "core"), Samples.world Samples.repo)
  /\ exists files,
       getWorkflows SimpleJson.parse (Samples.world Samples.repo)
       = (Normal files, Samples.world Samples.repo)
       /\ files = mkObject {["flow1" := JObject [("key", JString "flow1")]]} None.
Proof.
  split; [reflexivity|]. eexists. split; reflexivity.
Qed.

(** C3 on a working directory without a domain. *)
Lemma no_domain_null_and_empty_witness :
  Fs.readdirSync (fs (Samples.world Examples.no_domain)) "."
  = Normal [mkDirent ".git" DT_Dir; mkDirent "dist" DT_Dir;
            mkDirent "docs" DT_Dir; mkDirent "Tasks" DT_File]
  /\ (forall e,
        e ∈ [mkDirent ".git" DT_Dir; mkDirent "dist" DT_Dir;
             mkDirent "docs" DT_Dir; mkDirent "Tasks" DT_File] ->
        ~ skipped e -> ~ marker_exists Examples.no_domain e)
  /\ getDomainName (Samples.world Examples.no_domain)
     = (Normal None, Samples.world Examples.no_domain)
  /\ getSchemas SimpleJson.parse (Samples.world Examples.no_domain)
     = (Normal empty_object, Samples.world Examples.no_domain).
Proof.
  assert (H := no_domain_null_and_empty SimpleJson.parse
                 (Samples.world Examples.no_domain)
                 [mkDirent ".git" DT_Dir; mkDirent "dist" DT_Dir;
                  mkDirent "docs" DT_Dir; mkDirent "Tasks" DT_File]).
  split; [reflexivity|].
  split; [apply no_marker_by_test; reflexivity|].
  split; apply H; try reflexivity; apply no_marker_by_test; reflexivity.
Defined.

(** C4 on a component directory that is not there. *)
Lemma loadJsonFiles_missing_directory_witness :
  Fs.existsSync (fs (Samples.world Samples.repo)) "core/Schemas" = false
  /\ loadJsonFiles SimpleJson.parse "core/Schemas" (Samples.world Samples.repo)
     = (Normal empty_object, Samples.world Samples.repo).
Proof.
  split; [reflexivity|].
  apply (loadJsonFiles_missing_directory SimpleJson.parse). reflexivity.
Defined.

(** C6 without a configuration file, with a well-formed one and with a
    malformed one. *)
Lemma getDomainConfig_null_or_parsed_witness :
  getDomainConfig SimpleJson.parse (Samples.world Samples.repo)
  = (Normal JNull, Samples.world Samples.repo)
  /\ getDomainConfig SimpleJson.parse
       (Samples.world (Examples.configured (Samples.quoted "{'domain':'core'}")))
     = (Normal (JObject [("domain", JString "core")]),
        Samples.world (Examples.configured (Samples.quoted "{'domain':'core'}")))
  /\ getDomainConfig SimpleJson.parse (Samples.world (Examples.configured "{"))
     = (Normal JNull, Samples.world (Examples.configured "{")).
Proof.
  split; [|split].
  - apply (getDomainConfig_null_or_parsed SimpleJson.parse
             (Samples.world Samples.repo)).
    reflexivity.
  - apply (getDomainConfig_null_or_parsed SimpleJson.parse
             (Samples.world
                (Examples.configured (Samples.quoted "{'domain':'core'}")))
             ) with (text := Samples.quoted "{'domain':'core'}");
      reflexivity.
  - apply (getDomainConfig_null_or_parsed SimpleJson.parse
             (Samples.world (Examples.configured "{")))
      with (text := "{") (e := SimpleJson.syntax_error); reflexivity.
Defined.

(** C7 on a working directory that cannot be listed. *)
Lemma unreadable_working_directory_propagates_witness :
  Fs.readdirSync (fs (Samples.world Examples.unreadable)) "."
  = Throw (Fs.eacces "scandir" ".")
  /\ getDomainName (Samples.world Examples.unreadable)
     = (Throw (Fs.eacces "scandir" "."), Samples.world Examples.unreadable)
  /\ getSchemas SimpleJson.parse (Samples.world Examples.unreadable)
     = (Throw (Fs.eacces "scandir" "."), Samples.world Examples.unreadable).
Proof.
  pose proof (unreadable_working_directory_propagates SimpleJson.parse
                (Samples.world Examples.unreadable)
                (Fs.eacces "scandir" ".") eq_refl) as H.
  split; [reflexivity|]. split; [apply H | apply H].
Defined.

(** C2 on the directory that holds a.json and b.json alone. *)
Lemma loadJsonFiles_tolerates_bad_file_witness :
  Fs.readdirSync (fs (Samples.world Examples.two_files)) "core/Schemas"
  = Normal [a_json; b_json]
  /\ SimpleJson.parse x1_text = Normal x1_value
  /\ SimpleJson.parse "{" = Throw SimpleJson.syntax_error
  /\ exists files out,
       loadJsonFiles SimpleJson.parse "core/Schemas"
         (Samples.world Examples.two_files)
       = (Normal files, mkWorld Examples.two_files ([] ++ out))
       /\ own files !! "a" = Some x1_value
       /\ own files !! "b" = None
       /\ "Warning: Could not load b.json: Unexpected token in JSON" ∈ out
       /\ files = mkObject {["a" := x1_value]} None.
Proof.
  split; [reflexivity|]. split; [reflexivity|]. split; [reflexivity|].
  destruct (proj1 (loadJsonFiles_tolerates_bad_file SimpleJson.parse)
              (Samples.world Examples.two_files) "core/Schemas"
              [a_json; b_json] "{" SimpleJson.syntax_error)
    as (files & out & Hrun & Ha & Hb & Hwarn & Honly);
    try reflexivity; try (repeat constructor).
  exists files, out. repeat split; try assumption.
  apply Honly. intros e He.
  apply elem_of_cons in He as [->|He]; [by left|].
  apply elem_of_cons in He as [->|He]; [by right|].
  by apply elem_of_nil in He.
Defined.

(** C2 as stated fails on a directory that holds a third file, c.json: the
    entries include a.json and b.json as required, and the mapping has the
    key c besides the key a. *)
Lemma loadJsonFiles_third_file_counterexample :
  Fs.readdirSync (fs (Samples.world Examples.three_files)) "core/Schemas"
  = Normal [a_json; b_json; mkDirent "c.json" DT_File]
  /\ Fs.readFileSync (fs (Samples.world Examples.three_files))
       (Path.join "core/Schemas" "a.json") = Normal x1_text
  /\ SimpleJson.parse x1_text = Normal x1_value
  /\ Fs.readFileSync (fs (Samples.world Examples.three_files))
       (Path.join "core/Schemas" "b.json") = Normal "{"
  /\ SimpleJson.parse "{" = Throw SimpleJson.syntax_error
  /\ exists files w',
       loadJsonFiles SimpleJson.parse "core/Schemas"
         (Samples.world Examples.three_files) = (Normal files, w')
       /\ own files !! "c" = Some (JNumber 2)
       /\ own files <> {["a" := x1_value]}.
Proof.
  repeat (split; [reflexivity|]).
  eexists _, _. split; [reflexivity|]. split; [reflexivity|].
  intros Heq. apply (f_equal (fun m => m !! "c")) in Heq.
  vm_compute in Heq. discriminate.
Qed.

(** C5 on a file named a.jsonb.json: the name ends in .json, and the value
    is stored under ab.json, the name without its first .json, while
    nothing is stored under a.jsonb. *)
Lemma loadJsonFiles_removes_first_json :
  Fs.readdirSync (fs (Samples.world Examples.twice_json)) "core/Schemas"
  = Normal [mkDirent "a.jsonb.json" DT_File]
  /\ JsString.endsWith "a.jsonb.json" ".json" = true
  /\ exists files w',
       loadJsonFiles SimpleJson.parse "core/Schemas"
         (Samples.world Examples.twice_json) = (Normal files, w')
       /\ own files !! "ab.json" = Some (JNumber 1)
       /\ own files !! "a.jsonb" = None.
Proof.
  repeat (split; [reflexivity|]).
  eexists _, _. repeat split; reflexivity.
Qed.

(** A file named [__proto__.json] adds no key: its document becomes the
    prototype of the mapping. *)
Example loadJsonFiles_proto_file :
  loadJsonFiles SimpleJson.parse "core/Schemas" (Samples.world Examples.proto_file)
  = (Normal (mkObject ∅ (Some x1_value)), Samples.world Examples.proto_file).
Proof. reflexivity. Qed.

(** C10 on a working directory whose first eligible directory, core, holds
    a regular file named Schemas. *)
Lemma marker_file_selects_domain_witness :
  Fs.lookup_entry "Schemas" [("Schemas", Samples.file "not a directory")]
  = Some (RegFile true "not a directory")
  /\ findDomainDirectory (Samples.world Examples.marker_is_file)
     = (Normal (Some "core"), Samples.world Examples.marker_is_file)
  /\ getDomainName (Samples.world Examples.marker_is_file)
     = (Normal (Some "core"), Samples.world Examples.marker_is_file).
Proof.
  split; [reflexivity|].
  apply (marker_file_selects_domain
           [("README.md", Samples.file "readme");
            ("core", Samples.dir [("Schemas", Samples.file "not a directory")]);
            ("other", Samples.dir [("Schemas", Samples.dir [])])]
           [("README.md", Samples.file "readme")]
           [("other", Samples.dir [("Schemas", Samples.dir [])])]
           "core" true [("Schemas", Samples.file "not a directory")]
           "Schemas" true "not a directory" []).
  - reflexivity.
  - apply (bool_decide_unpack _). vm_compute. exact I.
  - discriminate.
  - reflexivity.
  - reflexivity.
  - repeat constructor.
  - repeat constructor.
  - reflexivity.
Defined.

(** Two successive invocations of getSchemas on the directory with a bad
    file: the second runs after the first has written its warning, writes
    the same warning again, and returns an equal mapping. *)
Example getSchemas_twice :
  fst (getSchemas SimpleJson.parse
         (snd (getSchemas SimpleJson.parse (Samples.world Examples.two_files))))
  = fst (getSchemas SimpleJson.parse (Samples.world Examples.two_files))
  /\ console (snd (getSchemas SimpleJson.parse (Samples.world Examples.two_files)))
     = ["Warning: Could not load b.json: Unexpected token in JSON"]
  /\ console
       (snd (getSchemas SimpleJson.parse
               (snd (getSchemas SimpleJson.parse
                       (Samples.world Examples.two_files)))))
     = ["Warning: Could not load b.json: Unexpected token in JSON";
        "Warning: Could not load b.json: Unexpected token in JSON"].
Proof. repeat split; reflexivity. Qed.

(** * Further properties of the module *)

Lemma find_unique_name {A B} (f : A -> bool) (g : A -> B) (l : list A) (x : A) :
  x ∈ l -> f x = true ->
  (forall y, y ∈ l -> f y = true -> g y = g x) ->
  option_map g (List.find f l) = Some (g x).
Proof.
  intros Hin Hx Hall. induction l as [|a l IH]; [by apply elem_of_nil in Hin|].
  cbn [List.find]. destruct (f a) eqn:Ha.
  - cbn. f_equal. apply Hall; [apply elem_of_cons; by left | exact Ha].
  - apply IH.
    + apply elem_of_cons in Hin as [->|Hin]; [congruence | exact Hin].
    + intros y Hy. apply Hall. apply elem_of_cons. by right.
Qed.

(** X1: when the entries of the working directory that qualify as a domain
    all bear one name, that name is what getDomainName returns. *)
Theorem getDomainName_only_candidate (w : World) (entries : list Dirent)
    (e : Dirent) :
  Fs.readdirSync (fs w) "." = Normal entries ->
  e ∈ entries ->
  qualifies (fs w) e ->
  (forall e', e' ∈ entries -> qualifies (fs w) e' -> name e' = name e) ->
  getDomainName w = (Normal (Some (name e)), w).
Proof.
  intros Hls Hin Hq Hall. unfold getDomainName.
  rewrite (findDomainDirectory_listing _ _ Hls), findDomainDirectory_loop_find.
  rewrite (find_unique_name _ name entries e); [reflexivity | exact Hin | |].
  - by apply qualifies_test.
  - intros y Hy Hqy. apply Hall; [exact Hy | by apply qualifies_test].
Qed.

Lemma js_set_lookup_inv obj k' v k x :
  own (js_set obj k' v) !! k = Some x ->
  (k' = k /\ x = v) \/ own obj !! k = Some x.
Proof.
  unfold js_set.
  destruct (String.eqb k' "__proto__" && reaches_proto_accessor obj).
  - destruct (is_object_or_null v); cbn; auto.
  - cbn. rewrite lookup_insert. destruct (decide (k' = k)) as [->|Hne].
    + intros [= <-]. auto.
    + auto.
Qed.

Section LoaderMore.

Variable JSON_parse : string -> completion json.

(** When the directory exists and listing it fails, the loader raises the
    error of the listing. *)
Lemma loadJsonFiles_unlistable_raises (w : World) (dirPath : string)
    (e : Error) :
  Fs.existsSync (fs w) dirPath = true ->
  Fs.readdirSync (fs w) dirPath = Throw e ->
  loadJsonFiles JSON_parse dirPath w = (Throw e, w).
Proof.
  intros Hex Hls. unfold loadJsonFiles. unfold bind at 1. unfold fs_existsSync.
  rewrite Hex. cbn [negb]. unfold bind, fs_readdirSync. by rewrite Hls.
Qed.

Lemma load_entries_filter cwd dirPath entries files :
  load_entries JSON_parse cwd dirPath (List.filter is_json_file entries) files
  = load_entries JSON_parse cwd dirPath entries files.
Proof.
  revert files. induction entries as [|e rest IH]; intros files; [reflexivity|].
  cbn [List.filter load_entries]. destruct (is_json_file e) eqn:Hj; [|apply IH].
  cbn [load_entries]. rewrite Hj.
  destruct (read_json JSON_parse cwd (Path.join dirPath (name e)));
    by rewrite IH.
Qed.

(** X3: the loop of the loader looks at regular files whose name ends in
    .json and at nothing else: subdirectories, links and files of other
    kinds change neither the mapping nor the output. *)
Theorem loadJsonFiles_loop_only_json_files (w : World) (dirPath : string)
    (entries : list Dirent) (files : JsObject) :
  loadJsonFiles_loop JSON_parse dirPath entries files w
  = loadJsonFiles_loop JSON_parse dirPath
      (List.filter (fun e => isFile e && JsString.endsWith (name e) ".json")
         entries)
      files w.
Proof.
  rewrite (world_eta w), !loadJsonFiles_loop_model.
  change (fun e => isFile e && JsString.endsWith (name e) ".json")
    with is_json_file.
  by rewrite load_entries_filter.
Qed.

Lemma read_json_normal cwd p text v :
  Fs.readFileSync cwd p = Normal text -> JSON_parse text = Normal v ->
  read_json JSON_parse cwd p = Normal v.
Proof. intros H1 H2. unfold read_json. by rewrite H1. Qed.

(** X4: a file that loads is found under its stem, whatever earlier files
    stored there, when no later file of the listing has the same stem. *)
Theorem loadJsonFiles_last_file_wins (w : World) (dirPath : string)
    (before after : list Dirent) (e : Dirent) (text : string) (v : json) :
  Fs.readdirSync (fs w) dirPath = Normal (before ++ e :: after) ->
  isFile e = true ->
  JsString.endsWith (name e) ".json" = true ->
  Fs.readFileSync (fs w) (Path.join dirPath (name e)) = Normal text ->
  JSON_parse text = Normal v ->
  JsString.replace (name e) ".json" EmptyString <> "__proto__" ->
  (forall e', e' ∈ after -> isFile e' = true ->
              JsString.endsWith (name e') ".json" = true ->
              JsString.replace (name e') ".json" EmptyString
              <> JsString.replace (name e) ".json" EmptyString) ->
  exists files out,
    loadJsonFiles JSON_parse dirPath w
    = (Normal files, mkWorld (fs w) (console w ++ out))
    /\ own files !! JsString.replace (name e) ".json" EmptyString = Some v.
Proof.
  intros Hls Hf He Hr Hp Hk Hafter.
  eexists _, _. split; [apply (loadJsonFiles_model _ _ _ _ Hls)|].
  apply (load_entries_records JSON_parse (fs w) dirPath before e after).
  - unfold is_json_file. by rewrite Hf, He.
  - by apply (read_json_normal _ _ text).
  - exact Hk.
  - intros e' He' Hj. apply andb_true_iff in Hj as [Hf' He'']. by apply Hafter.
Qed.

Lemma load_entries_sources cwd dirPath entries files k v :
  own (load_entries JSON_parse cwd dirPath entries files).1 !! k = Some v ->
  own files !! k = Some v
  \/ exists e, e ∈ entries /\ is_json_file e = true /\ baseName e = k
               /\ read_json JSON_parse cwd (Path.join dirPath (name e)) = Normal v.
Proof.
  revert files. induction entries as [|e rest IH]; intros files H; [by left|].
  cbn [load_entries] in H.
  assert (Hlift : forall P : Dirent -> Prop,
             (exists e', e' ∈ rest /\ P e') -> exists e', e' ∈ e :: rest /\ P e').
  { intros P (e' & Hin & HP). exists e'. split; [|exact HP].
    apply elem_of_cons. by right. }
  destruct (is_json_file e) eqn:Hj.
  - destruct (read_json JSON_parse cwd (Path.join dirPath (name e))) as [c|err] eqn:Hr.
    + destruct (IH _ H) as [H'|H']; [|right; by apply Hlift].
      apply js_set_lookup_inv in H' as [[Hk ->]|H']; [|by left].
      right. exists e. repeat split; auto. apply elem_of_cons. by left.
    + destruct (load_entries JSON_parse cwd dirPath rest files) as [f o] eqn:Hm.
      cbn [fst] in H. specialize (IH files). rewrite Hm in IH.
      destruct (IH H) as [H'|H']; [by left | right; by apply Hlift].
  - destruct (IH _ H) as [H'|H']; [by left | right; by apply Hlift].
Qed.

(** X5: every key of the mapping the loader returns is the stem of a regular
    .json file of the listing, and its value is what that file parses to. *)
Theorem loadJsonFiles_keys_from_files (w : World) (dirPath : string)
    (entries : list Dirent) :
  Fs.readdirSync (fs w) dirPath = Normal entries ->
  exists files out,
    loadJsonFiles JSON_parse dirPath w
    = (Normal files, mkWorld (fs w) (console w ++ out))
    /\ forall k v, own files !! k = Some v ->
         exists e text,
           e ∈ entries /\ isFile e = true
           /\ JsString.endsWith (name e) ".json" = true
           /\ JsString.replace (name e) ".json" EmptyString = k
           /\ Fs.readFileSync (fs w) (Path.join dirPath (name e)) = Normal text
           /\ JSON_parse text = Normal v.
Proof.
  intros Hls. eexists _, _. split; [apply (loadJsonFiles_model _ _ _ _ Hls)|].
  intros k v H. apply load_entries_sources in H as [H|(e & Hin & Hj & Hk & Hr)].
  - cbn in H. by rewrite lookup_empty in H.
  - apply andb_true_iff in Hj as [Hf He]. unfold read_json in Hr.
    destruct (Fs.readFileSync (fs w) (Path.join dirPath (name e))) as [text|err] eqn:Ht;
      [|discriminate].
    exists e, text. auto 10.
Qed.

Lemma load_entries_warnings cwd dirPath entries files :
  (load_entries JSON_parse cwd dirPath entries files).2
  = omap (failure_warning JSON_parse cwd dirPath) entries.
Proof.
  revert files. induction entries as [|e rest IH]; intros files; [reflexivity|].
  cbn [load_entries omap list_omap]. unfold failure_warning at 1.
  destruct (is_json_file e); [|apply IH].
  destruct (read_json JSON_parse cwd (Path.join dirPath (name e))); [apply IH|].
  specialize (IH files).
  destruct (load_entries JSON_parse cwd dirPath rest files). cbn in *. by rewrite IH.
Qed.

(** X6: the loader writes one warning for each .json file that cannot be
    read or does not parse, in the order of the listing, and nothing else;
    with no such file it writes nothing. *)
Theorem loadJsonFiles_warnings (w : World) (dirPath : string)
    (entries : list Dirent) :
  Fs.readdirSync (fs w) dirPath = Normal entries ->
  exists files,
    loadJsonFiles JSON_parse dirPath w
    = (Normal files,
       mkWorld (fs w)
         (console w ++ omap (failure_warning JSON_parse (fs w) dirPath) entries)).
Proof.
  intros Hls. eexists. rewrite (loadJsonFiles_model _ _ _ _ Hls).
  by rewrite load_entries_warnings.
Qed.

End LoaderMore.

Lemma endsWith_own_suffix stem :
  JsString.endsWith (stem +:+ ".json") ".json" = true.
Proof.
  rewrite (endsWith_append stem ".json" ".json") by (cbn; lia). reflexivity.
Qed.

Lemma load_entries_no_json cwd dirPath JSON_parse entries files :
  (forall e, e ∈ entries -> is_json_file e = false) ->
  load_entries JSON_parse cwd dirPath entries files = (files, []).
Proof.
  revert files. induction entries as [|e rest IH]; intros files H; [reflexivity|].
  cbn [load_entries]. rewrite (H e) by (apply elem_of_cons; by left).
  apply IH. intros e' He'. apply H. apply elem_of_cons. by right.
Qed.

Lemma load_entries_app JSON_parse cwd dirPath l1 l2 files :
  load_entries JSON_parse cwd dirPath (l1 ++ l2) files
  = let '(files1, out1) := load_entries JSON_parse cwd dirPath l1 files in
    let '(files2, out2) := load_entries JSON_parse cwd dirPath l2 files1 in
    (files2, out1 ++ out2).
Proof.
  revert files. induction l1 as [|e l1 IH]; intros files.
  - cbn. by destruct (load_entries JSON_parse cwd dirPath l2 files).
  - cbn [app load_entries]. destruct (is_json_file e); [|apply IH].
    destruct (read_json JSON_parse cwd (Path.join dirPath (name e))); [apply IH|].
    rewrite IH.
    destruct (load_entries JSON_parse cwd dirPath l1 files) as [f1 o1].
    by destruct (load_entries JSON_parse cwd dirPath l2 f1).
Qed.

Section AccessorsMore.

Variable JSON_parse : string -> completion json.

(** X2: once a domain is selected, an accessor whose component path exists
    but cannot be listed (a regular file, or an unreadable directory)
    raises the error of the listing instead of returning a mapping. *)
Theorem accessor_unlistable_component_raises (w : World) (d : string) :
  findDomainDirectory w = (Normal (Some d), w) ->
  d <> EmptyString ->
  (forall e, Fs.existsSync (fs w) (Path.join d "Schemas") = true ->
             Fs.readdirSync (fs w) (Path.join d "Schemas") = Throw e ->
             getSchemas JSON_parse w = (Throw e, w))
  /\ (forall e, Fs.existsSync (fs w) (Path.join d "Workflows") = true ->
                Fs.readdirSync (fs w) (Path.join d "Workflows") = Throw e ->
                getWorkflows JSON_parse w = (Throw e, w))
  /\ (forall e, Fs.existsSync (fs w) (Path.join d "Tasks") = true ->
                Fs.readdirSync (fs w) (Path.join d "Tasks") = Throw e ->
                getTasks JSON_parse w = (Throw e, w))
  /\ (forall e, Fs.existsSync (fs w) (Path.join d "Views") = true ->
                Fs.readdirSync (fs w) (Path.join d "Views") = Throw e ->
                getViews JSON_parse w = (Throw e, w))
  /\ (forall e, Fs.existsSync (fs w) (Path.join d "Functions") = true ->
                Fs.readdirSync (fs w) (Path.join d "Functions") = Throw e ->
                getFunctions JSON_parse w = (Throw e, w))
  /\ (forall e, Fs.existsSync (fs w) (Path.join d "Extensions") = true ->
                Fs.readdirSync (fs w) (Path.join d "Extensions") = Throw e ->
                getExtensions JSON_parse w = (Throw e, w)).
Proof.
  intros Hfind Hd. apply String.eqb_neq in Hd.
  unfold getSchemas, getWorkflows, getTasks, getViews, getFunctions, getExtensions.
  rewrite !(bind_normal _ _ _ _ _ Hfind). cbn [is_falsy the_string]. rewrite Hd.
  repeat split; intros e Hex Hls; by apply loadJsonFiles_unlistable_raises.
Qed.

(** X7: once a domain is selected, an accessor whose component directory
    does not exist returns an empty mapping: a component kind may be
    missing from a domain. *)
Theorem accessor_missing_component_empty (w : World) (d : string) :
  findDomainDirectory w = (Normal (Some d), w) ->
  d <> EmptyString ->
  (Fs.existsSync (fs w) (Path.join d "Schemas") = false ->
   getSchemas JSON_parse w = (Normal empty_object, w))
  /\ (Fs.existsSync (fs w) (Path.join d "Workflows") = false ->
      getWorkflows JSON_parse w = (Normal empty_object, w))
  /\ (Fs.existsSync (fs w) (Path.join d "Tasks") = false ->
      getTasks JSON_parse w = (Normal empty_object, w))
  /\ (Fs.existsSync (fs w) (Path.join d "Views") = false ->
      getViews JSON_parse w = (Normal empty_object, w))
  /\ (Fs.existsSync (fs w) (Path.join d "Functions") = false ->
      getFunctions JSON_parse w = (Normal empty_object, w))
  /\ (Fs.existsSync (fs w) (Path.join d "Extensions") = false ->
      getExtensions JSON_parse w = (Normal empty_object, w)).
Proof.
  intros Hfind Hd. apply String.eqb_neq in Hd.
  unfold getSchemas, getWorkflows, getTasks, getViews, getFunctions, getExtensions.
  rewrite !(bind_normal _ _ _ _ _ Hfind). cbn [is_falsy the_string]. rewrite Hd.
  repeat split; intros Hex; unfold loadJsonFiles, bind, fs_existsSync;
    by rewrite Hex.
Qed.

(** X8: a file named stem.json whose stem holds no .json and is not
    __proto__ is stored under its stem, when no later file of the listing
    has that stem. *)
Theorem loadJsonFiles_plain_name_key (w : World) (dirPath : string)
    (before after : list Dirent) (stem text : string) (v : json) :
  Fs.readdirSync (fs w) dirPath
  = Normal (before ++ mkDirent (stem +:+ ".json") DT_File :: after) ->
  JsString.indexOf stem ".json" = None ->
  stem <> "__proto__" ->
  Fs.readFileSync (fs w) (Path.join dirPath (stem +:+ ".json")) = Normal text ->
  JSON_parse text = Normal v ->
  (forall e', e' ∈ after -> isFile e' = true ->
              JsString.endsWith (name e') ".json" = true ->
              JsString.replace (name e') ".json" EmptyString <> stem) ->
  exists files out,
    loadJsonFiles JSON_parse dirPath w
    = (Normal files, mkWorld (fs w) (console w ++ out))
    /\ own files !! stem = Some v.
Proof.
  intros Hls Hstem Hproto Hr Hp Hafter.
  eexists _, _. split; [apply (loadJsonFiles_model _ _ _ _ Hls)|].
  pose proof (load_entries_records JSON_parse (fs w) dirPath before
                (mkDirent (stem +:+ ".json") DT_File) after empty_object v) as H.
  unfold baseName in H. cbn [name] in H.
  rewrite (replace_only_suffix _ Hstem) in H. apply H.
  - unfold is_json_file. cbn [isFile dtype name andb]. apply endsWith_own_suffix.
  - by apply (read_json_normal _ _ _ text).
  - exact Hproto.
  - intros e' He' Hj. apply andb_true_iff in Hj as [Hf He]. by apply Hafter.
Qed.

(** X9: when the only .json file of the listing is __proto__.json, the
    mapping has no key: a document that is an object, an array or null
    becomes the prototype of the mapping, any other document is dropped;
    no warning is written. *)
Theorem loadJsonFiles_proto_only (w : World) (dirPath : string)
    (before after : list Dirent) (text : string) (v : json) :
  Fs.readdirSync (fs w) dirPath
  = Normal (before ++ mkDirent "__proto__.json" DT_File :: after) ->
  (forall e, e ∈ before ++ after ->
             isFile e && JsString.endsWith (name e) ".json" = false) ->
  Fs.readFileSync (fs w) (Path.join dirPath "__proto__.json") = Normal text ->
  JSON_parse text = Normal v ->
  loadJsonFiles JSON_parse dirPath w
  = (Normal (mkObject ∅ (if is_object_or_null v then Some v else None)), w).
Proof.
  intros Hls Hothers Hr Hp.
  rewrite (loadJsonFiles_model _ _ _ _ Hls), load_entries_app.
  rewrite (load_entries_no_json (fs w) dirPath JSON_parse before)
    by (intros e He; apply Hothers, elem_of_app; by left).
  cbn [load_entries]. change (is_json_file (mkDirent "__proto__.json" DT_File)) with true.
  cbn iota. cbn [name]. rewrite (read_json_normal _ _ _ text v Hr Hp).
  rewrite (load_entries_no_json (fs w) dirPath JSON_parse after)
    by (intros e He; apply Hothers, elem_of_app; by right).
  cbn [fst snd app]. rewrite app_nil_r, <- world_eta.
  change (baseName (mkDirent "__proto__.json" DT_File)) with "__proto__".
  unfold js_set.
  change (String.eqb "__proto__" "__proto__" && reaches_proto_accessor empty_object)
    with true.
  by destruct (is_object_or_null v).
Qed.

End AccessorsMore.

(** * The test script against the module *)

Lemma split_no_sep d : no_sep d = true -> Path.split d = [d].
Proof.
  induction d as [|c d IH]; intros H; [reflexivity|].
  cbn [no_sep] in H. apply andb_true_iff in H as [Hc Hd].
  apply negb_true_iff in Hc. cbn [Path.split]. by rewrite Hc, (IH Hd).
Qed.

(** What exists at [d/m] lies in something that exists at [d]. *)
Lemma existsSync_parent cwd d m :
  d <> EmptyString -> no_sep d = true -> JsString.startsWith d "." = false ->
  m ∈ ["Schemas"; "Workflows"; "Tasks"] ->
  Fs.existsSync cwd (Path.join d m) = true -> Fs.existsSync cwd d = true.
Proof.
  intros Hne Hsep Hdot Hm.
  destruct (join_marker d m Hne Hsep Hdot Hm) as [-> Hsplit].
  destruct (not_hidden_not_dots d Hdot) as [Hd1 _].
  apply String.eqb_neq in Hne as Hne', Hd1.
  unfold Fs.existsSync, Fs.resolve. rewrite Hsplit, (split_no_sep d Hsep), Hne'.
  assert (Hp : String.eqb (d +:+ "/" +:+ m) EmptyString = false).
  { destruct d; [by apply String.eqb_neq in Hne'|reflexivity]. }
  rewrite Hp. cbn [Fs.walk]. rewrite Hne', Hd1. cbn [orb].
  destruct (Fs.deref cwd) as [[| r es |]|]; try discriminate.
  destruct (Fs.lookup_entry d es) as [c|]; [|discriminate].
  destruct (Fs.deref c) as [n|]; [reflexivity | discriminate].
Qed.

Lemma marked_existsSync cwd d :
  d <> EmptyString -> no_sep d = true -> JsString.startsWith d "." = false ->
  marked cwd d = true -> Fs.existsSync cwd d = true.
Proof.
  intros Hne Hsep Hdot Hm. unfold marked in Hm.
  apply orb_true_iff in Hm as [Hm|Hm]; [apply orb_true_iff in Hm as [Hm|Hm]|].
  - apply (existsSync_parent cwd d "Schemas"); auto. set_solver.
  - apply (existsSync_parent cwd d "Workflows"); auto. set_solver.
  - apply (existsSync_parent cwd d "Tasks"); auto. set_solver.
Qed.

Lemma test9_count_spec domainPath dirs foundDirs w :
  test9_count domainPath dirs foundDirs w
  = (Normal (foundDirs
             + length (List.filter
                         (fun dir => Fs.existsSync (fs w) (Path.join domainPath dir))
                         dirs))%nat,
     w).
Proof.
  revert foundDirs. induction dirs as [|dir rest IH]; intros foundDirs.
  - cbn. by rewrite Nat.add_0_r.
  - cbn [test9_count List.filter]. unfold bind, fs_existsSync.
    rewrite IH. destruct (Fs.existsSync (fs w) (Path.join domainPath dir));
      cbn [length]; do 2 f_equal; lia.
Qed.

Lemma marked_found cwd d :
  marked cwd d = true ->
  length (List.filter (fun dir => Fs.existsSync cwd (Path.join d dir)) expectedDirs)
  <> 0%nat.
Proof.
  unfold marked, expectedDirs. cbn [List.filter].
  destruct (Fs.existsSync cwd (Path.join d "Schemas")); [discriminate|].
  destruct (Fs.existsSync cwd (Path.join d "Workflows")); [discriminate|].
  destruct (Fs.existsSync cwd (Path.join d "Tasks")); [discriminate|].
  discriminate.
Qed.

Lemma eligible_not_hidden e :
  eligible e = true -> JsString.startsWith (name e) "." = false.
Proof.
  unfold eligible. intros H.
  apply andb_true_iff in H as [H _]. apply andb_true_iff in H as [H _].
  apply andb_true_iff in H as [_ H]. by apply negb_true_iff in H.
Qed.

(** X10: Test 9 cannot fail on a working directory that can be listed and
    whose entries have proper names: the directory the locator selects
    exists and holds at least one of the six expected directories. *)
Theorem test9_passes (w : World) (entries : list Dirent) :
  Fs.readdirSync (fs w) "." = Normal entries ->
  (forall e, e ∈ entries -> name e <> EmptyString /\ no_sep (name e) = true) ->
  test9 w = (Normal tt, w).
Proof.
  intros Hls Hnames. unfold test9, getDomainName.
  rewrite (bind_normal _ _ _ _ _
             (eq_trans (findDomainDirectory_listing _ _ Hls)
                (findDomainDirectory_loop_find entries w))).
  destruct (List.find _ entries) as [e|] eqn:Hfind; [|reflexivity].
  apply find_some in Hfind as [Hin Htest].
  apply andb_true_iff in Htest as [Hel Hm].
  apply list_elem_of_In in Hin. destruct (Hnames e Hin) as [Hne Hsep].
  cbn [option_map is_falsy the_string]. apply String.eqb_neq in Hne as Hne'.
  rewrite Hne'. cbn [negb]. unfold bind at 1. unfold fs_existsSync.
  rewrite (marked_existsSync _ _ Hne Hsep (eligible_not_hidden _ Hel) Hm).
  cbn [negb]. unfold bind. rewrite test9_count_spec. cbn [Nat.add].
  pose proof (marked_found _ _ Hm) as Hfound.
  destruct (length _); [congruence | reflexivity].
Qed.

Lemma resolve_config cwd :
  Fs.resolve cwd "./vnext.config.json" = Fs.resolve cwd "vnext.config.json".
Proof.
  unfold Fs.resolve.
  change (Path.split "./vnext.config.json") with ["."; "vnext.config.json"].
  change (Path.split "vnext.config.json") with ["vnext.config.json"].
  cbn [String.eqb Ascii.eqb Bool.eqb]. cbn [Fs.walk].
  destruct (Fs.deref cwd) as [[| r es |]|]; reflexivity.
Qed.

Lemma existsSync_config cwd :
  Fs.existsSync cwd "./vnext.config.json" = Fs.existsSync cwd "vnext.config.json".
Proof. unfold Fs.existsSync. by rewrite resolve_config. Qed.

Lemma readFileSync_config cwd :
  match Fs.readFileSync cwd "./vnext.config.json",
        Fs.readFileSync cwd "vnext.config.json" with
  | Normal a, Normal b => a = b
  | Throw _, Throw _ => True
  | _, _ => False
  end.
Proof.
  unfold Fs.readFileSync. rewrite resolve_config.
  by destruct (Fs.resolve cwd "vnext.config.json") as [[[|] text| |]|].
Qed.

Section TestsAgainstConfig.

Variable JSON_parse : string -> completion json.

(** X11: Test 8 passes exactly when vnext.config.json does not exist or
    getDomainConfig returns an object or an array: a file that exists
    but cannot be read or parsed, or that holds null, a boolean, a number
    or a string, fails it. *)
Theorem test8_passes_iff (w : World) :
  test8 JSON_parse w = (Normal tt, w)
  <-> Fs.existsSync (fs w) "vnext.config.json" = false
      \/ exists v, getDomainConfig JSON_parse w = (Normal v, w)
                   /\ typeof_object v = true /\ is_null v = false.
Proof.
  unfold test8. unfold bind at 1. unfold fs_existsSync.
  rewrite existsSync_config.
  destruct (Fs.existsSync (fs w) "vnext.config.json") eqn:Hex.
  - unfold getDomainConfig, try_catch, bind, fs_readFileSync, lift, ret, throw.
    pose proof (readFileSync_config (fs w)) as Hrd.
    destruct (Fs.readFileSync (fs w) "./vnext.config.json") as [text|err],
      (Fs.readFileSync (fs w) "vnext.config.json") as [text'|err'];
      try contradiction.
    + subst text'. destruct (JSON_parse text) as [v|err].
      * destruct v; cbn;
          (split;
           [ intros H; try discriminate; right; eexists; repeat split; reflexivity
           | intros [H|(v' & H & Hv1 & Hv2)];
             [ discriminate
             | injection H as <-; try discriminate; reflexivity ] ]).
      * split; [discriminate|].
        intros [H|(v & H & Hv1 & Hv2)]; [discriminate|].
        injection H as <-. discriminate.
    + split; [discriminate|].
      intros [H|(v & H & Hv1 & Hv2)]; [discriminate|].
      injection H as <-. discriminate.
  - split; auto.
Qed.

(** X12: Test 4 fails exactly when vnext.config.json can be read and parses
    to a boolean, a number or a string, which getDomainConfig then returns
    as it is; in every other case the test passes. *)
Theorem test4_fails_iff (w : World) :
  (test4 JSON_parse w = (Normal tt, w)
   \/ test4 JSON_parse w
      = (Throw (mkError "getDomainConfig should return null or an object"), w))
  /\ (test4 JSON_parse w
      = (Throw (mkError "getDomainConfig should return null or an object"), w)
      <-> exists text v,
            Fs.readFileSync (fs w) "vnext.config.json" = Normal text
            /\ JSON_parse text = Normal v
            /\ typeof_object v = false
            /\ getDomainConfig JSON_parse w = (Normal v, w)).
Proof.
  unfold test4, getDomainConfig, try_catch, bind, fs_readFileSync, lift, ret, throw.
  destruct (Fs.readFileSync (fs w) "vnext.config.json") as [text|err].
  - destruct (JSON_parse text) as [v|err] eqn:Hp.
    + destruct v; cbn; (split; [auto|]);
        (split;
         [ intros H; try discriminate; eexists _, _; repeat split; eauto
         | intros (text' & v' & Ht & Hv & Hty & Hres);
           injection Ht as <-; rewrite Hp in Hv; injection Hv as <-;
           try discriminate; reflexivity ]).
    + cbn. split; [auto|]. split; [discriminate|].
      intros (text' & v' & Ht & Hv & _). injection Ht as <-. congruence.
  - cbn. split; [auto|]. split; [discriminate|].
    intros (text' & v' & Ht & _). discriminate.
Qed.

End TestsAgainstConfig.

(** ** Clean paths *)

Lemma valid_name_parts k :
  valid_name k = true ->
  String.eqb k EmptyString = false /\ String.eqb k "." = false
  /\ String.eqb k ".." = false /\ no_sep k = true.
Proof.
  unfold valid_name. rewrite !andb_true_iff, !negb_true_iff. tauto.
Qed.

Lemma concat_cons2 (x y : string) (r : list string) :
  String.concat "/" (x :: y :: r) = x +:+ String Path.sep (String.concat "/" (y :: r)).
Proof. reflexivity. Qed.

Lemma split_concat segs :
  segs <> [] -> Forall (fun k => valid_name k = true) segs ->
  Path.split (String.concat "/" segs) = segs.
Proof.
  intros Hne Hall. induction Hall as [|x r Hx Hr IH]; [congruence|].
  apply valid_name_parts in Hx as (_ & _ & _ & Hsep).
  destruct r as [|y r].
  - cbn [String.concat]. by apply split_no_sep.
  - rewrite concat_cons2, (split_segment _ _ Hsep), IH; [reflexivity | congruence].
Qed.

Lemma fold_normalize_clean b segs acc :
  Forall (fun k => valid_name k = true) segs ->
  fold_left (Path.normalize_step b) segs acc = acc ++ segs.
Proof.
  intros Hall. revert acc. induction Hall as [|x r Hx Hr IH]; intros acc.
  - cbn. by rewrite app_nil_r.
  - cbn [fold_left]. apply valid_name_parts in Hx as (H1 & H2 & H3 & _).
    unfold Path.normalize_step at 2. rewrite H1, H2, H3. cbn [orb].
    rewrite IH, <- app_assoc. reflexivity.
Qed.

Lemma append_assoc (a b c : string) : (a +:+ b) +:+ c = a +:+ (b +:+ c).
Proof.
  induction a as [|x a IH]; [reflexivity|]. rewrite !append_cons. by rewrite IH.
Qed.

Lemma concat_snoc segs k :
  segs <> [] ->
  String.concat "/" (segs ++ [k]) = String.concat "/" segs +:+ "/" +:+ k.
Proof.
  intros Hne. induction segs as [|x r IH]; [congruence|].
  destruct r as [|y r]; [reflexivity|].
  change (String.concat "/" ((x :: y :: r) ++ [k]))
    with (x +:+ "/" +:+ String.concat "/" ((y :: r) ++ [k])).
  rewrite IH by congruence.
  change (String.concat "/" (x :: y :: r))
    with (x +:+ "/" +:+ String.concat "/" (y :: r)).
  by rewrite !append_assoc.
Qed.

Lemma slice_from_decompose n s :
  (n <= String.length s)%nat -> exists a, s = a +:+ JsString.slice_from n s.
Proof.
  revert s. induction n as [|n IH]; intros s Hn.
  - exists EmptyString. by destruct s.
  - destruct s as [|c s]; [cbn in Hn; lia|].
    cbn [String.length] in Hn. destruct (IH s ltac:(lia)) as [a Ha].
    exists (String c a). rewrite append_cons. cbn [JsString.slice_from].
    by rewrite <- Ha.
Qed.

Lemma endsWith_decompose s p :
  JsString.endsWith s p = true -> exists a, s = a +:+ p.
Proof.
  unfold JsString.endsWith. intros H. apply andb_true_iff in H as [Hlen Heq].
  apply Nat.leb_le in Hlen. apply String.eqb_eq in Heq.
  destruct (slice_from_decompose (String.length s - String.length p) s ltac:(lia))
    as [a Ha].
  exists a. by rewrite Heq in Ha.
Qed.

Lemma no_sep_append_sep a t : no_sep (a +:+ String Path.sep t) = false.
Proof.
  induction a as [|c a IH]; [reflexivity|].
  rewrite append_cons. cbn [no_sep]. rewrite IH. apply andb_false_r.
Qed.

Lemma endsWith_sep_no_sep k :
  no_sep k = true -> JsString.endsWith k "/" = false.
Proof.
  intros Hsep. destruct (JsString.endsWith k "/") eqn:He; [|reflexivity].
  apply endsWith_decompose in He as [a ->].
  change "/" with (String Path.sep EmptyString) in Hsep.
  rewrite no_sep_append_sep in Hsep. discriminate.
Qed.

Lemma concat_nonempty segs :
  segs <> [] -> Forall (fun k => valid_name k = true) segs ->
  exists c t, String.concat "/" segs = String c t
              /\ Ascii.eqb c Path.sep = false.
Proof.
  intros Hne Hall. destruct Hall as [|x r Hx Hr]; [congruence|].
  apply valid_name_parts in Hx as (H1 & _ & _ & Hsep).
  destruct x as [|c x]; [discriminate|].
  cbn [no_sep] in Hsep. apply andb_true_iff in Hsep as [Hc _].
  apply negb_true_iff in Hc.
  destruct r as [|y r].
  - exists c, x. auto.
  - rewrite concat_cons2, append_cons. eexists _, _. eauto.
Qed.

Lemma concat_length_pos segs :
  segs <> [] -> Forall (fun k => valid_name k = true) segs ->
  (1 <= String.length (String.concat "/" segs))%nat.
Proof.
  intros Hne Hall. destruct (concat_nonempty segs Hne Hall) as (c & t & -> & _).
  cbn. lia.
Qed.

Lemma endsWith_concat segs :
  segs <> [] -> Forall (fun k => valid_name k = true) segs ->
  JsString.endsWith (String.concat "/" segs) "/" = false.
Proof.
  intros Hne Hall. induction Hall as [|x r Hx Hr IH]; [congruence|].
  destruct r as [|y r].
  - cbn [String.concat]. apply endsWith_sep_no_sep.
    by apply valid_name_parts in Hx as (_ & _ & _ & Hsep).
  - rewrite concat_cons2.
    change (x +:+ String Path.sep (String.concat "/" (y :: r)))
      with (x +:+ ("/" +:+ String.concat "/" (y :: r))).
    rewrite endsWith_append by (rewrite length_append; cbn; lia).
    rewrite (endsWith_append "/") ; [apply IH; congruence|].
    apply (concat_length_pos (y :: r)); [congruence | exact Hr].
Qed.

Lemma normalize_clean segs :
  segs <> [] -> Forall (fun k => valid_name k = true) segs ->
  Path.normalize (String.concat "/" segs) = String.concat "/" segs.
Proof.
  intros Hne Hall. unfold Path.normalize.
  destruct (concat_nonempty segs Hne Hall) as (c & t & Hc & Hsep).
  assert (Hnz : String.eqb (String.concat "/" segs) EmptyString = false)
    by (by rewrite Hc).
  assert (Habs : JsString.startsWith (String.concat "/" segs) "/" = false).
  { rewrite Hc. cbn [JsString.startsWith]. rewrite Ascii.eqb_sym.
    unfold Path.sep in Hsep. by rewrite Hsep. }
  assert (Hq : Path.normalizeString (String.concat "/" segs) true
               = String.concat "/" segs).
  { unfold Path.normalizeString.
    by rewrite (split_concat _ Hne Hall), (fold_normalize_clean _ _ _ Hall). }
  rewrite Hnz, Habs. cbn [negb]. rewrite Hq, Hnz.
  by rewrite (endsWith_concat _ Hne Hall).
Qed.

Lemma join_clean p k :
  clean_path p -> valid_name k = true ->
  Path.join p k = p +:+ "/" +:+ k /\ clean_path (p +:+ "/" +:+ k).
Proof.
  intros (segs & Hne & Hall & ->) Hk.
  assert (Hne' : segs ++ [k] <> []) by (by destruct segs).
  assert (Hall' : Forall (fun k => valid_name k = true) (segs ++ [k])).
  { apply Forall_app. split; [exact Hall | by constructor]. }
  split.
  - unfold Path.join.
    destruct (concat_nonempty segs Hne Hall) as (c & t & Hc & _).
    apply valid_name_parts in Hk as (Hk1 & _).
    rewrite Hk1. replace (String.eqb (String.concat "/" segs) EmptyString) with false
      by (by rewrite Hc).
    rewrite <- (concat_snoc _ _ Hne). by apply normalize_clean.
  - exists (segs ++ [k]). by rewrite (concat_snoc _ _ Hne).
Qed.

Lemma walk_app n l1 l2 :
  Fs.walk n (l1 ++ l2)
  = match Fs.walk n l1 with
    | Some m => Fs.walk m l2
    | None => None
    end.
Proof.
  revert n. induction l1 as [|seg l1 IH]; intros n; [reflexivity|].
  cbn [app Fs.walk].
  destruct (Fs.deref n) as [[| r es |]|]; try reflexivity.
  destruct (String.eqb seg EmptyString || String.eqb seg "."); [apply IH|].
  destruct (Fs.lookup_entry seg es); [apply IH | reflexivity].
Qed.

(** What a clean path extended by a name resolves to. *)
Lemma resolve_clean_child cwd p k r es :
  clean_path p -> valid_name k = true ->
  Fs.resolve cwd p = Some (Directory r es) ->
  Fs.resolve cwd (p +:+ "/" +:+ k)
  = match Fs.lookup_entry k es with
    | Some c => Fs.deref c
    | None => None
    end.
Proof.
  intros (segs & Hne & Hall & ->) Hk Hres.
  assert (Hall' : Forall (fun k => valid_name k = true) (segs ++ [k])).
  { apply Forall_app. split; [exact Hall | by constructor]. }
  assert (Hne' : segs ++ [k] <> []) by (by destruct segs).
  unfold Fs.resolve in *. rewrite <- (concat_snoc _ _ Hne).
  rewrite (split_concat _ Hne' Hall'). rewrite (split_concat _ Hne Hall) in Hres.
  destruct (concat_nonempty _ Hne' Hall') as (c & t & -> & _).
  destruct (concat_nonempty _ Hne Hall) as (c0 & t0 & Hc0 & _).
  rewrite Hc0 in Hres. cbn [String.eqb] in *.
  rewrite walk_app. destruct (Fs.walk cwd segs) as [m|]; [|discriminate].
  cbn [Fs.walk]. rewrite Hres.
  apply valid_name_parts in Hk as (Hk1 & Hk2 & _). rewrite Hk1, Hk2. cbn [orb].
  by destruct (Fs.lookup_entry k es).
Qed.

Lemma lookup_entry_NoDup k c es :
  NoDup (map fst es) -> (k, c) ∈ es -> Fs.lookup_entry k es = Some c.
Proof.
  intros Hnd Hin. induction es as [|[k' c'] es IH]; [by apply elem_of_nil in Hin|].
  cbn [map fst] in Hnd. apply NoDup_cons in Hnd as [Hnotin Hnd].
  cbn [Fs.lookup_entry]. apply elem_of_cons in Hin as [Heq|Hin].
  - injection Heq as <- <-. by rewrite String.eqb_refl.
  - destruct (String.eqb k' k) eqn:Hk; [|by apply IH].
    apply String.eqb_eq in Hk. subst k'. exfalso. apply Hnotin.
    apply list_elem_of_fmap. exists (k, c). auto.
Qed.

(** ** The walk of Test 10 *)

Lemma depth_child k c r es :
  (k, c) ∈ es -> (depth c < depth (Directory r es))%nat.
Proof.
  intros Hin. cbn [depth]. apply Nat.lt_succ_r.
  induction es as [|[k' c'] es IH]; [by apply elem_of_nil in Hin|].
  apply elem_of_cons in Hin as [Heq|Hin].
  - injection Heq as <- <-. apply Nat.le_max_l.
  - etransitivity; [apply (IH Hin) | apply Nat.le_max_r].
Qed.

Lemma json_files_cons p k c rest :
  json_files p (Directory true ((k, c) :: rest))
  = match
      match c with
      | Directory _ _ => json_files (p +:+ "/" +:+ k) c
      | RegFile _ _ =>
          if JsString.endsWith k ".json" then Normal [p +:+ "/" +:+ k] else Normal []
      | Symlink _ => Normal []
      end
    with
    | Normal found =>
        match json_files p (Directory true rest) with
        | Normal more => Normal (found ++ more)
        | Throw e => Throw e
        end
    | Throw e => Throw e
    end.
Proof. reflexivity. Qed.

Lemma readdirSync_resolved cwd p r es :
  Fs.resolve cwd p = Some (Directory r es) ->
  Fs.readdirSync cwd p
  = if r then Normal (map Fs.dirent_of es) else Throw (Fs.eacces "scandir" p).
Proof. intros H. unfold Fs.readdirSync. rewrite H. by destruct r. Qed.

Lemma findJsonFiles_loop_walk fuel cwd out p r es suffix acc :
  (forall p' c, clean_path p' -> Fs.resolve cwd p' = Some c -> wf_dir c ->
                (depth c < fuel)%nat ->
                findJsonFiles fuel p' (mkWorld cwd out)
                = (finished (json_files p' c), mkWorld cwd out)) ->
  clean_path p ->
  Fs.resolve cwd p = Some (Directory r es) ->
  NoDup (map fst es) ->
  (forall k c, (k, c) ∈ suffix ->
               (k, c) ∈ es /\ valid_name k = true
               /\ (is_dir c = true -> wf_dir c /\ (depth c < fuel)%nat)) ->
  findJsonFiles_loop (findJsonFiles fuel) p (map Fs.dirent_of suffix) acc
    (mkWorld cwd out)
  = (match json_files p (Directory true suffix) with
     | Normal l => Normal (Some (acc ++ l))
     | Throw e => Throw e
     end, mkWorld cwd out).
Proof.
  intros Hrec Hclean Hres Hnd. revert acc.
  induction suffix as [|[k c] rest IH]; intros acc Hall.
  - cbn. by rewrite app_nil_r.
  - assert (Hrest : forall k' c', (k', c') ∈ rest ->
              (k', c') ∈ es /\ valid_name k' = true
              /\ (is_dir c' = true -> wf_dir c' /\ (depth c' < fuel)%nat)).
    { intros k' c' Hin. apply Hall. apply elem_of_cons. by right. }
    destruct (Hall k c ltac:(apply elem_of_cons; by left)) as (Hin & Hk & Hdir).
    destruct (join_clean p k Hclean Hk) as [Hjoin Hclean'].
    rewrite json_files_cons. cbn [map findJsonFiles_loop].
    change (Fs.dirent_of (k, c)) with (mkDirent k (Fs.type_of c)).
    cbn [name]. rewrite Hjoin.
    destruct c as [rd content | r' es' | target]; cbn [Fs.type_of isDirectory isFile dtype].
    + cbn [andb]. destruct (JsString.endsWith k ".json").
      * rewrite (IH _ Hrest).
        destruct (json_files p (Directory true rest)); [|reflexivity].
        by rewrite <- app_assoc.
      * rewrite (IH _ Hrest).
        by destruct (json_files p (Directory true rest)).
    + destruct (Hdir eq_refl) as [Hwf Hdepth].
      unfold bind.
      rewrite (Hrec (p +:+ "/" +:+ k) (Directory r' es') Hclean');
        [| |exact Hwf|exact Hdepth].
      * destruct (json_files (p +:+ "/" +:+ k) (Directory r' es')) as [found|e];
          cbn [finished]; [|reflexivity].
        rewrite (IH _ Hrest).
        destruct (json_files p (Directory true rest)); [|reflexivity].
        by rewrite <- app_assoc.
      * rewrite (resolve_clean_child cwd p k r es Hclean Hk Hres).
        by rewrite (lookup_entry_NoDup k _ es Hnd Hin).
    + cbn [andb]. rewrite (IH _ Hrest).
      by destruct (json_files p (Directory true rest)).
Qed.

Lemma findJsonFiles_walk (fuel : nat) (cwd : node) (out : list string)
    (p : string) (n : node) :
  clean_path p ->
  Fs.resolve cwd p = Some n ->
  wf_dir n ->
  (depth n < fuel)%nat ->
  findJsonFiles fuel p (mkWorld cwd out)
  = (finished (json_files p n), mkWorld cwd out).
Proof.
  revert p n. induction fuel as [|fuel IH]; intros p n Hclean Hres Hwf Hdepth; [lia|].
  destruct Hwf as [r es Hnd Hnames Hsub].
  cbn [findJsonFiles]. unfold bind, fs_readdirSync. cbn [fs].
  rewrite (readdirSync_resolved _ _ _ _ Hres).
  destruct r; [|reflexivity].
  rewrite (findJsonFiles_loop_walk fuel cwd out p true es es [] IH Hclean Hres Hnd).
  - by destruct (json_files p (Directory true es)).
  - intros k c Hin. split; [exact Hin|]. split; [by apply (Hnames k c)|].
    intros Hd. split; [by apply (Hsub k c)|].
    pose proof (depth_child k c true es Hin). lia.
Qed.

(** X13: on a directory whose tree has valid, distinct names, a bound above
    the depth of the tree lets findJsonFiles finish, and what it returns is
    the paths of the regular .json files of the tree, directory by
    directory in listing order, links left aside; an unreadable directory
    makes it raise the error of its listing. *)
Theorem findJsonFiles_enumerates (fuel : nat) (cwd : node) (out : list string)
    (p : string) (n : node) :
  clean_path p ->
  Fs.resolve cwd p = Some n ->
  wf_dir n ->
  (depth n < fuel)%nat ->
  findJsonFiles fuel p (mkWorld cwd out)
  = (finished (json_files p n), mkWorld cwd out).
Proof. apply findJsonFiles_walk. Qed.

Lemma clean_path_name d : valid_name d = true -> clean_path d.
Proof. intros H. exists [d]. repeat split; [discriminate | by constructor]. Qed.

Section TestTen.

Variable JSON_parse : string -> completion json.

Lemma test10_check_cons file rest w :
  test10_check JSON_parse (file :: rest) w
  = match read_json JSON_parse (fs w) file with
    | Normal _ => test10_check JSON_parse rest w
    | Throw e =>
        (Throw (mkError ("Invalid JSON in file " +:+ file +:+ ": " +:+ message e)), w)
    end.
Proof.
  cbn [test10_check]. unfold bind at 1, try_catch, bind, fs_readFileSync, lift,
    ret, throw, read_json.
  destruct (Fs.readFileSync (fs w) file) as [text|e]; [|reflexivity].
  by destruct (JSON_parse text).
Qed.

Lemma test10_check_outcome files w :
  (test10_check JSON_parse files w = (Normal tt, w)
   \/ exists e, test10_check JSON_parse files w = (Throw e, w))
  /\ (test10_check JSON_parse files w = (Normal tt, w)
      <-> forall f, f ∈ files ->
            exists v, read_json JSON_parse (fs w) f = Normal v).
Proof.
  induction files as [|file rest [IHor IHiff]].
  - split; [by left|]. split; [|reflexivity].
    intros _ f Hf. by apply elem_of_nil in Hf.
  - rewrite test10_check_cons.
    destruct (read_json JSON_parse (fs w) file) as [v|e] eqn:Hr.
    + split; [exact IHor|]. rewrite IHiff. split.
      * intros H f Hf. apply elem_of_cons in Hf as [->|Hf]; [eauto | by apply H].
      * intros H f Hf. apply H. apply elem_of_cons. by right.
    + split; [right; eauto|]. split; [discriminate|].
      intros H. destruct (H file ltac:(apply elem_of_cons; by left)) as [v Hv].
      congruence.
Qed.


Lemma test10_run (fuel : nat) (w : World) (d : string) (n : node) :
  getDomainName w = (Normal (Some d), w) ->
  valid_name d = true ->
  Fs.resolve (fs w) d = Some n ->
  wf_dir n ->
  (depth n < fuel)%nat ->
  test10 JSON_parse fuel w
  = match json_files d n with
    | Normal files =>
        match test10_check JSON_parse files w with
        | (Normal _, w') => (Normal (Some tt), w')
        | (Throw e, w') => (Throw e, w')
        end
    | Throw e => (Throw e, w)
    end.
Proof.
  intros Hname Hvalid Hres Hwf Hdepth.
  unfold test10. rewrite (bind_normal _ _ _ _ _ Hname).
  apply valid_name_parts in Hvalid as Hparts. destruct Hparts as (Hne & _).
  cbn [is_falsy the_string]. rewrite Hne.
  unfold bind at 1. unfold fs_existsSync, Fs.existsSync. rewrite Hres.
  unfold bind at 1.
  rewrite (world_eta w) at 1.
  rewrite (findJsonFiles_walk fuel (fs w) (console w) d n
             (clean_path_name d Hvalid) Hres Hwf Hdepth).
  rewrite <- world_eta.
  destruct (json_files d n) as [files|e]; cbn [finished]; [|reflexivity].
  unfold bind, ret.
  by destruct (test10_check JSON_parse files w) as [[[]|e] w'].
Qed.

End TestTen.

(** * The further properties on sample filesystems *)

Lemma only_candidate_by_test cwd entries e :
  forallb (fun e' => implb (eligible e' && marked cwd (name e'))
                       (String.eqb (name e') (name e))) entries = true ->
  forall e', e' ∈ entries -> qualifies cwd e' -> name e' = name e.
Proof.
  intros Hall e' Hin Hq. rewrite forallb_forall in Hall.
  apply list_elem_of_In in Hin. specialize (Hall e' Hin).
  apply qualifies_test in Hq. rewrite Hq in Hall. by apply String.eqb_eq.
Qed.

Lemma valid_names_by_test (entries : list Dirent) :
  forallb (fun e => negb (String.eqb (name e) EmptyString) && no_sep (name e))
    entries = true ->
  forall e, e ∈ entries -> name e <> EmptyString /\ no_sep (name e) = true.
Proof.
  intros Hall e Hin. rewrite forallb_forall in Hall.
  apply list_elem_of_In in Hin. specialize (Hall e Hin).
  apply andb_true_iff in Hall as [Hne Hsep]. apply negb_true_iff in Hne.
  split; [by apply String.eqb_neq | exact Hsep].
Qed.

Ltac members Hin :=
  repeat match type of Hin with
         | _ ∈ _ :: _ =>
             apply elem_of_cons in Hin; destruct Hin as [Hin|Hin];
             [injection Hin as -> ->|]
         end;
  [..|by apply elem_of_nil in Hin].

Ltac wf_tree :=
  constructor;
  [ apply (bool_decide_unpack _); vm_compute; exact I
  | let k := fresh "k" in let c := fresh "c" in let Hin := fresh "Hin" in
    intros k c Hin; members Hin; reflexivity
  | let k := fresh "k" in let c := fresh "c" in let Hin := fresh "Hin" in
    let Hd := fresh "Hd" in
    intros k c Hin Hd; members Hin; try discriminate Hd; wf_tree ].

(** X1 on a working directory with a configuration file and one domain. *)
Lemma getDomainName_only_candidate_witness :
  Fs.readdirSync (fs (Samples.world (Examples.configured "{"))) "."
  = Normal [mkDirent "vnext.config.json" DT_File; mkDirent "core" DT_Dir]
  /\ qualifies (Examples.configured "{") (mkDirent "core" DT_Dir)
  /\ getDomainName (Samples.world (Examples.configured "{"))
     = (Normal (Some "core"), Samples.world (Examples.configured "{")).
Proof.
  split; [reflexivity|]. split; [by apply qualifies_test|].
  apply (getDomainName_only_candidate (Samples.world (Examples.configured "{"))
           [mkDirent "vnext.config.json" DT_File; mkDirent "core" DT_Dir]
           (mkDirent "core" DT_Dir)).
  - reflexivity.
  - apply elem_of_cons. right. apply elem_of_cons. by left.
  - by apply qualifies_test.
  - by apply only_candidate_by_test.
Defined.

(** X2 on the domain whose Schemas is a regular file. *)
Lemma accessor_unlistable_component_raises_witness :
  findDomainDirectory (Samples.world Examples.marker_is_file)
  = (Normal (Some "core"), Samples.world Examples.marker_is_file)
  /\ Fs.existsSync Examples.marker_is_file (Path.join "core" "Schemas") = true
  /\ getSchemas SimpleJson.parse (Samples.world Examples.marker_is_file)
     = (Throw (Fs.enotdir "scandir" "core/Schemas"),
        Samples.world Examples.marker_is_file).
Proof.
  split; [reflexivity|]. split; [reflexivity|].
  apply (accessor_unlistable_component_raises SimpleJson.parse
           (Samples.world Examples.marker_is_file) "core");
    [reflexivity | discriminate | reflexivity | reflexivity].
Defined.

(** X4 on two files with the stem x.json: the later one is kept. *)
Lemma loadJsonFiles_last_file_wins_witness :
  Fs.readdirSync (fs (Samples.world Cases.colliding)) "core/Schemas"
  = Normal [mkDirent ".jsonx.json" DT_File; mkDirent "x.json.json" DT_File]
  /\ JsString.replace ".jsonx.json" ".json" EmptyString = "x.json"
  /\ JsString.replace "x.json.json" ".json" EmptyString = "x.json"
  /\ exists files out,
       loadJsonFiles SimpleJson.parse "core/Schemas" (Samples.world Cases.colliding)
       = (Normal files, mkWorld Cases.colliding ([] ++ out))
       /\ own files !! "x.json" = Some (JNumber 2).
Proof.
  split; [reflexivity|]. split; [reflexivity|]. split; [reflexivity|].
  apply (loadJsonFiles_last_file_wins SimpleJson.parse
           (Samples.world Cases.colliding) "core/Schemas"
           [mkDirent ".jsonx.json" DT_File] [] (mkDirent "x.json.json" DT_File)
           "2" (JNumber 2)); try reflexivity; try discriminate.
  intros e' He'. by apply elem_of_nil in He'.
Defined.

(** X5 on the directory with a.json and b.json. *)
Lemma loadJsonFiles_keys_from_files_witness :
  Fs.readdirSync (fs (Samples.world Examples.two_files)) "core/Schemas"
  = Normal [a_json; b_json]
  /\ exists files out,
       loadJsonFiles SimpleJson.parse "core/Schemas" (Samples.world Examples.two_files)
       = (Normal files, mkWorld Examples.two_files ([] ++ out))
       /\ forall k v, own files !! k = Some v ->
            exists e text,
              e ∈ [a_json; b_json] /\ isFile e = true
              /\ JsString.endsWith (name e) ".json" = true
              /\ JsString.replace (name e) ".json" EmptyString = k
              /\ Fs.readFileSync Examples.two_files
                   (Path.join "core/Schemas" (name e)) = Normal text
              /\ SimpleJson.parse text = Normal v.
Proof.
  split; [reflexivity|].
  apply (loadJsonFiles_keys_from_files SimpleJson.parse
           (Samples.world Examples.two_files) "core/Schemas" [a_json; b_json]).
  reflexivity.
Defined.

(** X6 on a directory with one unparsable file among other entries. *)
Lemma loadJsonFiles_warnings_witness :
  Fs.readdirSync (fs (Samples.world Cases.mixed)) "core/Schemas"
  = Normal [mkDirent "nested" DT_Dir; mkDirent "link.json" DT_Link;
            mkDirent "notes.txt" DT_File; mkDirent "good.json" DT_File;
            mkDirent "bad.json" DT_File]
  /\ exists files,
       loadJsonFiles SimpleJson.parse "core/Schemas" (Samples.world Cases.mixed)
       = (Normal files,
          mkWorld Cases.mixed
            ([] ++ ["Warning: Could not load bad.json: Unexpected token in JSON"])).
Proof.
  split; [reflexivity|].
  apply (loadJsonFiles_warnings SimpleJson.parse (Samples.world Cases.mixed)
           "core/Schemas"
           [mkDirent "nested" DT_Dir; mkDirent "link.json" DT_Link;
            mkDirent "notes.txt" DT_File; mkDirent "good.json" DT_File;
            mkDirent "bad.json" DT_File]).
  reflexivity.
Defined.

(** X7 on the repository whose domain has Workflows alone. *)
Lemma accessor_missing_component_empty_witness :
  findDomainDirectory (Samples.world Samples.repo)
  = (Normal (Some "core"), Samples.world Samples.repo)
  /\ Fs.existsSync Samples.repo (Path.join "core" "Schemas") = false
  /\ getSchemas SimpleJson.parse (Samples.world Samples.repo)
     = (Normal empty_object, Samples.world Samples.repo).
Proof.
  split; [reflexivity|]. split; [reflexivity|].
  apply (accessor_missing_component_empty SimpleJson.parse
           (Samples.world Samples.repo) "core");
    [reflexivity | discriminate | reflexivity].
Defined.

(** X8 on a.json, followed by b.json. *)
Lemma loadJsonFiles_plain_name_key_witness :
  Fs.readdirSync (fs (Samples.world Examples.two_files)) "core/Schemas"
  = Normal ([] ++ mkDirent ("a" +:+ ".json") DT_File :: [b_json])
  /\ JsString.indexOf "a" ".json" = None
  /\ exists files out,
       loadJsonFiles SimpleJson.parse "core/Schemas" (Samples.world Examples.two_files)
       = (Normal files, mkWorld Examples.two_files ([] ++ out))
       /\ own files !! "a" = Some x1_value.
Proof.
  split; [reflexivity|]. split; [reflexivity|].
  apply (loadJsonFiles_plain_name_key SimpleJson.parse
           (Samples.world Examples.two_files) "core/Schemas" [] [b_json]
           "a" x1_text x1_value); try reflexivity; try discriminate.
  intros e' He' _ _. apply elem_of_cons in He' as [->|He']; [discriminate|].
  by apply elem_of_nil in He'.
Defined.

(** X9 on a directory holding __proto__.json alone. *)
Lemma loadJsonFiles_proto_only_witness :
  Fs.readdirSync (fs (Samples.world Examples.proto_file)) "core/Schemas"
  = Normal ([] ++ mkDirent "__proto__.json" DT_File :: [])
  /\ loadJsonFiles SimpleJson.parse "core/Schemas" (Samples.world Examples.proto_file)
     = (Normal (mkObject ∅ (Some x1_value)), Samples.world Examples.proto_file).
Proof.
  split; [reflexivity|].
  apply (loadJsonFiles_proto_only SimpleJson.parse
           (Samples.world Examples.proto_file) "core/Schemas" [] [] x1_text x1_value);
    try reflexivity.
  intros e He. by apply elem_of_nil in He.
Defined.

(** X10 on the repository with hidden and reserved directories. *)
Lemma test9_passes_witness :
  Fs.readdirSync (fs (Samples.world Samples.repo)) "."
  = Normal [mkDirent ".git" DT_Dir; mkDirent "node_modules" DT_Dir;
            mkDirent "README.md" DT_File; mkDirent "core" DT_Dir;
            mkDirent "other" DT_Dir]
  /\ test9 (Samples.world Samples.repo) = (Normal tt, Samples.world Samples.repo).
Proof.
  split; [reflexivity|].
  apply (test9_passes (Samples.world Samples.repo)
           [mkDirent ".git" DT_Dir; mkDirent "node_modules" DT_Dir;
            mkDirent "README.md" DT_File; mkDirent "core" DT_Dir;
            mkDirent "other" DT_Dir]); [reflexivity|].
  by apply valid_names_by_test.
Defined.

(** X13 on the domain directory with a nested directory, a link and files
    of several kinds. *)
Lemma findJsonFiles_enumerates_witness :
  findJsonFiles 4 "core" (mkWorld Cases.mixed [])
  = (Normal (Some ["core/Schemas/nested/deep.json"; "core/Schemas/good.json";
                   "core/Schemas/bad.json"]),
     mkWorld Cases.mixed []).
Proof.
  apply (findJsonFiles_enumerates 4 Cases.mixed [] "core"
           (Samples.dir
              [("Schemas",
                Samples.dir
                  [("nested", Samples.dir [("deep.json", Samples.file "1")]);
                   ("link.json", Symlink (Some (Samples.file "2")));
                   ("notes.txt", Samples.file "3");
                   ("good.json", Samples.file "4");
                   ("bad.json", Samples.file "{")])])).
  - by apply clean_path_name.
  - reflexivity.
  - wf_tree.
  - cbn. lia.
Defined.

(** Test 10 on that domain raises the error of bad.json. *)
Example test10_bad_file :
  test10 SimpleJson.parse 4 (Samples.world Cases.mixed)
  = (Throw (mkError "Invalid JSON in file core/Schemas/bad.json: Unexpected token in JSON"),
     Samples.world Cases.mixed).
Proof. reflexivity. Qed.

(** * Test 10 and the loader *)

Lemma json_files_readable p r es l :
  json_files p (Directory r es) = Normal l -> r = true.
Proof. by destruct r. Qed.

Lemma json_files_dir_child p es l k r2 es2 :
  json_files p (Directory true es) = Normal l ->
  (k, Directory r2 es2) ∈ es ->
  exists found,
    json_files (p +:+ "/" +:+ k) (Directory r2 es2) = Normal found
    /\ forall f, f ∈ found -> f ∈ l.
Proof.
  revert l. induction es as [|[k' c'] es IH]; intros l H Hin;
    [by apply elem_of_nil in Hin|].
  rewrite json_files_cons in H.
  destruct (match c' with
            | Directory _ _ => json_files (p +:+ "/" +:+ k') c'
            | RegFile _ _ =>
                if JsString.endsWith k' ".json"
                then Normal [p +:+ "/" +:+ k'] else Normal []
            | Symlink _ => Normal []
            end) as [here|e] eqn:Hhere; [|discriminate].
  destruct (json_files p (Directory true es)) as [more|e]; [|discriminate].
  injection H as <-. apply elem_of_cons in Hin as [Heq|Hin].
  - injection Heq as <- <-. exists here. split; [exact Hhere|].
    intros f Hf. apply elem_of_app. by left.
  - destruct (IH more eq_refl Hin) as (found & Hfound & Hsub).
    exists found. split; [exact Hfound|].
    intros f Hf. apply elem_of_app. right. by apply Hsub.
Qed.

Lemma json_files_file_child p es l k rd content :
  json_files p (Directory true es) = Normal l ->
  (k, RegFile rd content) ∈ es ->
  JsString.endsWith k ".json" = true ->
  (p +:+ "/" +:+ k) ∈ l.
Proof.
  revert l. induction es as [|[k' c'] es IH]; intros l H Hin He;
    [by apply elem_of_nil in Hin|].
  rewrite json_files_cons in H.
  destruct (match c' with
            | Directory _ _ => json_files (p +:+ "/" +:+ k') c'
            | RegFile _ _ =>
                if JsString.endsWith k' ".json"
                then Normal [p +:+ "/" +:+ k'] else Normal []
            | Symlink _ => Normal []
            end) as [here|e] eqn:Hhere; [|discriminate].
  destruct (json_files p (Directory true es)) as [more|e]; [|discriminate].
  injection H as <-. apply elem_of_cons in Hin as [Heq|Hin].
  - injection Heq as <- <-. rewrite He in Hhere. injection Hhere as <-.
    apply elem_of_app. left. apply elem_of_cons. by left.
  - apply elem_of_app. right. by apply (IH more eq_refl Hin He).
Qed.

Lemma omap_none {A B} (f : A -> option B) (l : list A) :
  (forall x, x ∈ l -> f x = None) -> omap f l = [].
Proof.
  induction l as [|x l IH]; intros H; [reflexivity|].
  cbn [omap list_omap]. rewrite (H x) by (apply elem_of_cons; by left).
  apply IH. intros y Hy. apply H. apply elem_of_cons. by right.
Qed.

Section TestTenAndLoader.

Variable JSON_parse : string -> completion json.

(** X15: when Test 10 passes on a domain whose tree has valid, distinct
    names, the loader applied to any directory that is an entry of the
    domain, as the accessors apply it to Schemas, Workflows and the others,
    returns its mapping without raising and without writing a warning. *)
Theorem test10_passes_loader_silent (fuel : nat) (w : World) (d : string)
    (r : bool) (es : list (string * node)) (sub : string) (r2 : bool)
    (es2 : list (string * node)) :
  getDomainName w = (Normal (Some d), w) ->
  valid_name d = true ->
  Fs.resolve (fs w) d = Some (Directory r es) ->
  wf_dir (Directory r es) ->
  (depth (Directory r es) < fuel)%nat ->
  test10 JSON_parse fuel w = (Normal (Some tt), w) ->
  (sub, Directory r2 es2) ∈ es ->
  exists files, loadJsonFiles JSON_parse (Path.join d sub) w = (Normal files, w).
Proof.
  intros Hname Hvalid Hres Hwf Hdepth Htest Hsub.
  rewrite (test10_run JSON_parse fuel w d _ Hname Hvalid Hres Hwf Hdepth) in Htest.
  destruct (json_files d (Directory r es)) as [files|e] eqn:Hjf; [|discriminate].
  assert (Hcheck : test10_check JSON_parse files w = (Normal tt, w)).
  { destruct (test10_check JSON_parse files w) as [[[]|e] w']; [|discriminate].
    by injection Htest as ->. }
  pose proof (proj1 (proj2 (test10_check_outcome JSON_parse files w)) Hcheck)
    as Hall.
  apply json_files_readable in Hjf as Hr. subst r.
  destruct (json_files_dir_child _ _ _ _ _ _ Hjf Hsub) as (found & Hfound & Hincl).
  apply json_files_readable in Hfound as Hr2. subst r2.
  inversion Hwf as [r0 es0 Hnd Hnames Hsubwf]. subst r0 es0.
  pose proof (Hnames _ _ Hsub) as Hvsub.
  pose proof (Hsubwf _ _ Hsub eq_refl) as Hwf2.
  inversion Hwf2 as [r0 es0 Hnd2 Hnames2 _]. subst r0 es0.
  destruct (join_clean d sub (clean_path_name d Hvalid) Hvsub) as [Hjoin Hclean].
  assert (Hres2 : Fs.resolve (fs w) (d +:+ "/" +:+ sub) = Some (Directory true es2)).
  { rewrite (resolve_clean_child _ _ _ _ _ (clean_path_name d Hvalid) Hvsub Hres).
    by rewrite (lookup_entry_NoDup _ _ _ Hnd Hsub). }
  rewrite Hjoin.
  rewrite (loadJsonFiles_model JSON_parse w _ (map Fs.dirent_of es2))
    by (by rewrite (readdirSync_resolved _ _ _ _ Hres2)).
  rewrite load_entries_warnings, omap_none.
  - rewrite app_nil_r, <- world_eta. eauto.
  - intros e He. apply list_elem_of_fmap in He as ([k c] & -> & Hin).
    unfold failure_warning, is_json_file, Fs.dirent_of.
    cbn [fst snd name dtype isFile].
    destruct c as [rd content| |]; cbn [Fs.type_of andb]; try reflexivity.
    destruct (JsString.endsWith k ".json") eqn:Hend; [|reflexivity].
    destruct (join_clean _ k Hclean (Hnames2 _ _ Hin)) as [-> _].
    destruct (Hall ((d +:+ "/" +:+ sub) +:+ "/" +:+ k)) as [v Hv].
    + apply Hincl.
      by apply (json_files_file_child _ _ _ _ rd content Hfound Hin).
    + by rewrite Hv.
Qed.

End TestTenAndLoader.

(** X15 on a domain in which every .json file parses, for its Schemas. *)
Lemma test10_passes_loader_silent_witness :
  test10 SimpleJson.parse 4 (Samples.world Cases.healthy)
  = (Normal (Some tt), Samples.world Cases.healthy)
  /\ exists files,
       loadJsonFiles SimpleJson.parse (Path.join "core" "Schemas")
         (Samples.world Cases.healthy)
       = (Normal files, Samples.world Cases.healthy).
Proof.
  split; [reflexivity|].
  apply (test10_passes_loader_silent SimpleJson.parse 4
           (Samples.world Cases.healthy) "core" true
           [("Schemas",
             Samples.dir
               [("a.json", Samples.file x1_text);
                ("drafts", Samples.dir [("b.json", Samples.file "2")])]);
            ("Workflows", Samples.dir [("flow.json", Samples.file "3")])]
           "Schemas" true
           [("a.json", Samples.file x1_text);
            ("drafts", Samples.dir [("b.json", Samples.file "2")])]).
  - reflexivity.
  - reflexivity.
  - reflexivity.
  - wf_tree.
  - cbn. lia.
  - reflexivity.
  - apply elem_of_cons. by left.
Defined.

(** * Test 10 on a whole domain *)



Section TestTenOutcome.

Variable JSON_parse : string -> completion json.


End TestTenOutcome.


(** Test 10 on a domain whose Schemas cannot be listed raises the error of
    the listing, although the file inside parses. *)
Example test10_unlistable_directory :
  test10 SimpleJson.parse 4 (Samples.world Cases.unlistable_schemas)
  = (Throw (Fs.eacces "scandir" "core/Schemas"),
     Samples.world Cases.unlistable_schemas)
  /\ json_files "core"
       (Samples.dir [("Schemas", Directory false [("a.json", Samples.file x1_text)])])
     = Throw (Fs.eacces "scandir" "core/Schemas").
Proof. split; reflexivity. Qed.
